(** * flask_discord.models: a shallow embedding and its checked properties

    The development follows the layout of [flask_discord/models]:
    - [Py]: the Python values and builtins the models rely on
      (truthiness, [dict.get], subscripting, [int()], [str()],
      [str.startswith], [str.replace], [str.format]);
    - [Meta]: the metaclass [DiscordModelsMeta] of [base.py];
    - [Http], [Base]: the request log and [DiscordModelsBase.fetch_from_api];
    - [Integration], [GuildMember], [User]: the three model classes;
    - [Sample]: payloads and a client to evaluate the model on;
    - the theorems, one section per topic: the metaclass check,
      equality, construction from a payload, avatar URLs, and the
      requests with the guild-member cache.

    Python exceptions are values of [Py.res]; a method that issues
    requests or mutates its object runs in the state monad [Http.M], whose
    state holds the object and the log of the requests sent. *)

From Stdlib Require Import ZArith Lia Ascii String DecimalString.
From Stdlib Require Import Floats.SpecFloat.
From stdpp Require Import base option list gmap strings.

Local Open Scope string_scope.
Local Open Scope list_scope.

(* ===================================================================== *)
(** ** Python values and builtins                                          *)
(* ===================================================================== *)

Module Py.

(** What [json.loads] produces.  A JSON object is an insertion-ordered
    list of bindings; lookups take the first binding of a key. *)
#[warnings="-register-all"]
Inductive value : Type :=
| VNone
| VBool (b : bool)
| VInt (n : Z)
| VFloat (f : spec_float)
| VStr (s : string)
| VList (l : list value)
| VDict (d : list (string * value)).

(** The exceptions that the modelled code can see. *)
Inductive exn : Type :=
| KeyError (key : string)
| IndexError
| AttributeError
| TypeError
| ValueError
| OverflowError
| NotImplementedError (msg : string)
| Unauthorized
| HTTPError (status : Z).

(** Outcome of evaluating an expression: a value or a raised exception. *)
Inductive res (A : Type) : Type :=
| Ok (a : A)
| Raise (e : exn).
Arguments Ok {A} a.
Arguments Raise {A} e.

Definition res_bind {A B} (r : res A) (k : A -> res B) : res B :=
  match r with
  | Ok a => k a
  | Raise e => Raise e
  end.

Declare Scope res_scope.
Delimit Scope res_scope with res.
Notation "'let?' x ':=' r 'in' k" := (res_bind r (fun x => k))
  (at level 10, x pattern, r at level 100, k at level 200) : res_scope.

(** [bool(v)]: the falsy JSON values are [None], [False], zero, the empty
    string, the empty list and the empty object. *)
Definition truthy (v : value) : bool :=
  match v with
  | VNone => false
  | VBool b => b
  | VInt n => negb (n =? 0)%Z
  | VFloat (S754_zero _) => false
  | VFloat _ => true
  | VStr s => negb (String.eqb s EmptyString)
  | VList l => match l with [] => false | _ => true end
  | VDict d => match d with [] => false | _ => true end
  end.

(** [a or b]. *)
Definition py_or (a b : value) : value := if truthy a then a else b.

(** [v == "lit"] for a string literal: only an equal string compares
    equal to a string. *)
Definition eq_str (v : value) (lit : string) : bool :=
  match v with
  | VStr s => String.eqb s lit
  | _ => false
  end.

(** Lookup in the bindings of a JSON object. *)
Fixpoint assoc (k : string) (d : list (string * value)) : option value :=
  match d with
  | [] => None
  | (k', v) :: d' => if String.eqb k k' then Some v else assoc k d'
  end.

(** [obj.get(key, default)]: an attribute of dictionaries only. *)
Definition get (obj : value) (key : string) (dflt : value) : res value :=
  match obj with
  | VDict d => Ok (default dflt (assoc key d))
  | _ => Raise AttributeError
  end.

(** [obj[key]] with a string key: [KeyError] on a dictionary without the
    key; no other JSON value can be subscripted by a string. *)
Definition getitem (obj : value) (key : string) : res value :=
  match obj with
  | VDict d =>
      match assoc key d with
      | Some v => Ok v
      | None => Raise (KeyError key)
      end
  | _ => Raise TypeError
  end.

(** *** [int()] *)

Definition is_space (c : ascii) : bool :=
  let n := N_of_ascii c in
  ((9 <=? n) && (n <=? 13) || (28 <=? n) && (n <=? 32))%N.

Definition is_Some {A} (o : option A) : bool :=
  match o with Some _ => true | None => false end.

Definition digit_of (c : ascii) : option Z :=
  let n := N_of_ascii c in
  if ((48 <=? n) && (n <=? 57))%N then Some (Z.of_N n - 48)%Z else None.

Fixpoint lstrip (s : string) : string :=
  match s with
  | String c s' => if is_space c then lstrip s' else s
  | EmptyString => s
  end.

Fixpoint rstrip (s : string) : string :=
  match s with
  | EmptyString => EmptyString
  | String c s' =>
      match rstrip s' with
      | EmptyString => if is_space c then EmptyString else String c EmptyString
      | t => String c t
      end
  end.

(** Digits of a decimal literal; a single underscore may separate two
    digits.  [after_digit] tells whether the previous character was a
    digit, [acc] is the number read so far. *)
Fixpoint digits (s : string) (after_digit : bool) (acc : Z) : option Z :=
  match s with
  | EmptyString => if after_digit then Some acc else None
  | String c s' =>
      match digit_of c with
      | Some d => digits s' true (10 * acc + d)%Z
      | None =>
          if Ascii.eqb c "_" && after_digit
          then match s' with
               | String c' _ =>
                   if is_Some (digit_of c') then digits s' false acc else None
               | EmptyString => None
               end
          else None
      end
  end.

(** [int(s)] for a string: surrounding whitespace, an optional sign, then
    decimal digits. *)
Definition int_of_str (s : string) : option Z :=
  match rstrip (lstrip s) with
  | String "-" t => Z.opp <$> digits t false 0
  | String "+" t => digits t false 0
  | t => digits t false 0
  end.

(** [int(x)] for a float: truncation towards zero; not-a-number and the
    infinities have no integer value. *)
Definition int_of_float (f : spec_float) : res Z :=
  match f with
  | S754_zero _ => Ok 0%Z
  | S754_infinity _ => Raise OverflowError
  | S754_nan => Raise ValueError
  | S754_finite sign m e =>
      let magnitude :=
        if (0 <=? e)%Z then (Z.pos m * 2 ^ e)%Z else (Z.pos m / 2 ^ (- e))%Z in
      Ok (if sign then - magnitude else magnitude)%Z
  end.

Definition int (v : value) : res Z :=
  match v with
  | VInt n => Ok n
  | VBool b => Ok (if b then 1 else 0)%Z
  | VFloat f => int_of_float f
  | VStr s =>
      match int_of_str s with
      | Some n => Ok n
      | None => Raise ValueError
      end
  | VNone | VList _ | VDict _ => Raise TypeError
  end.

(** *** [str()], [startswith], [replace], [format] *)

Definition str_of_Z (n : Z) : string := NilZero.string_of_int (Z.to_int n).

(** Python's printing of floats and containers is left to the
    interpreter: it is a parameter of everything that formats a value. *)
Class Builtins := { repr : value -> string }.

Definition str `{Builtins} (v : value) : string :=
  match v with
  | VStr s => s
  | VInt n => str_of_Z n
  | VBool true => "True"
  | VBool false => "False"
  | VNone => "None"
  | VFloat _ | VList _ | VDict _ => repr v
  end.

Fixpoint prefix (p s : string) : bool :=
  match p, s with
  | EmptyString, _ => true
  | String a p', String b s' => Ascii.eqb a b && prefix p' s'
  | String _ _, EmptyString => false
  end.

(** [v] is a string that begins with [p]. *)
Definition has_prefix (v : value) (p : string) : bool :=
  match v with
  | VStr s => prefix p s
  | _ => false
  end.

(** [v.startswith(p)]: only strings have the method. *)
Definition startswith (v : value) (p : string) : res bool :=
  match v with
  | VStr s => Ok (prefix p s)
  | _ => Raise AttributeError
  end.

(** [s.replace(old, new)] for a non-empty [old]: occurrences are replaced
    from left to right without overlap.  [skip] counts the characters of
    the occurrence just replaced that are still to be dropped. *)
Fixpoint replace_from (old new s : string) (skip : nat) : string :=
  match s with
  | EmptyString => EmptyString
  | String c s' =>
      match skip with
      | S k => replace_from old new s' k
      | O =>
          if prefix old s
          then new +:+ replace_from old new s' (String.length old - 1)
          else String c (replace_from old new s' 0)
      end
  end.

Definition replace (s old new : string) : string := replace_from old new s 0.

(** A format string, split into its literal text and replacement fields:
    [{0}]/[{}] is [Pos 0], [{name}] is [Named "name"]. *)
Inductive piece : Type :=
| Lit (text : string)
| Pos (index : nat)
| Named (name : string).

Definition template : Type := list piece.

(** [tmpl.format] applied to positional [args] and keyword [kwargs]. *)
Fixpoint format `{Builtins} (tmpl : template) (args : list value)
    (kwargs : list (string * value)) : res string :=
  match tmpl with
  | [] => Ok EmptyString
  | p :: tmpl' =>
      let? here :=
        match p with
        | Lit text => Ok text
        | Pos i =>
            match args !! i with
            | Some v => Ok (str v)
            | None => Raise IndexError
            end
        | Named name =>
            match assoc name kwargs with
            | Some v => Ok (str v)
            | None => Raise (KeyError name)
            end
        end in
      let? rest := format tmpl' args kwargs in
      Ok (here +:+ rest)
  end%res.

End Py.

Import Py.
Local Open Scope res_scope.

(* ===================================================================== *)
(** ** base.py: the metaclass                                              *)
(* ===================================================================== *)

Module Meta.

(** A class as [DiscordModelsMeta.__init__] receives it: its name and the
    namespaces of the classes of its method resolution order, the class's
    own namespace first. *)
Record class : Type := {
  name : string;
  mro : list (list (string * value));
}.

(** [DiscordModelsMeta.ROUTE = str()]. *)
Definition DiscordModelsMeta_ROUTE : value := VStr EmptyString.

Fixpoint lookup_mro (attr : string) (spaces : list (list (string * value)))
    : option value :=
  match spaces with
  | [] => None
  | space :: spaces' =>
      match assoc attr space with
      | Some v => Some v
      | None => lookup_mro attr spaces'
      end
  end.

(** [cls.ROUTE]: the first namespace of the resolution order that binds
    [ROUTE]; when none does, the attribute of the metaclass. *)
Definition ROUTE (cls : class) : value :=
  default DiscordModelsMeta_ROUTE (lookup_mro "ROUTE" (mro cls)).

Definition message (cls_name : string) : string :=
  "ROUTE must be specified in a Discord model: " +:+ cls_name +:+ ".".

(** [DiscordModelsMeta.__init__(cls, name, ...)]. *)
Definition __init__ (cls : class) : res unit :=
  if negb (truthy (ROUTE cls)) && negb (String.eqb (name cls) "DiscordModelsBase")
  then Raise (NotImplementedError (message (name cls)))
  else Ok tt.

(** A [class] statement whose metaclass is [DiscordModelsMeta]: the class
    exists once the metaclass initialiser has returned. *)
Definition class_statement (cls : class) : res class :=
  let? _ := __init__ cls in Ok cls.

(** The namespaces of the classes of the package. *)
Definition object_ns : list (string * value) := [].
Definition DiscordModelsBase_ns : list (string * value) :=
  [("BOT", VBool false); ("MANY", VBool false)].
Definition User_ns : list (string * value) := [("ROUTE", VStr "/users/@me")].
Definition GuildMember_ns : list (string * value) :=
  [("MANY", VBool false); ("ROUTE", VStr "/users/@me/guilds/{guild_id}/member")].

Definition DiscordModelsBase : class :=
  {| name := "DiscordModelsBase"; mro := [DiscordModelsBase_ns; object_ns] |}.
Definition User : class :=
  {| name := "User"; mro := [User_ns; DiscordModelsBase_ns; object_ns] |}.
Definition Bot : class :=
  {| name := "Bot"; mro := [[]; User_ns; DiscordModelsBase_ns; object_ns] |}.
Definition GuildMember : class :=
  {| name := "GuildMember";
     mro := [GuildMember_ns; DiscordModelsBase_ns; object_ns] |}.

(** A model class written without a route: [cls.ROUTE] falls back to the
    empty string of the metaclass. *)
Definition routeless : class :=
  {| name := "UserConnection"; mro := [[]; DiscordModelsBase_ns; object_ns] |}.

End Meta.

(* ===================================================================== *)
(** ** configs.py and the client                                           *)
(* ===================================================================== *)

(** The constants of [flask_discord/configs.py] that the models read.  The
    file is not part of the sources at hand, so the constants are
    parameters. *)
Class Configs : Type := {
  DISCORD_IMAGE_FORMAT : string;
  DISCORD_ANIMATED_IMAGE_FORMAT : string;
  DISCORD_USER_AVATAR_BASE_URL : template;
  DISCORD_DEFAULT_USER_AVATAR_BASE_URL : template;
  DISCORD_GUILD_MEMBER_AVATAR_BASE_URL : template;
}.

Module Http.

(** One outgoing HTTP request: which credentials sign it, the method, the
    route and the JSON body. *)
Record Call : Type := {
  bot : bool;
  method : string;
  route : string;
  json : option value;
}.

(** [current_app.discord] as the models use it: the remote API, which
    answers a request given the requests issued before it, and what
    [get_authorization_token()] returns for the current session. *)
Class Client : Type := {
  respond : list Call -> Call -> res value;
  get_authorization_token : res value;
}.

(** The state a method runs in: the object it is called on and the log of
    the requests issued so far. *)
Record World (O : Type) : Type := {
  self : O;
  calls : list Call;
}.
Arguments self {O} _.
Arguments calls {O} _.

Definition M (O A : Type) : Type := World O -> res A * World O.

Definition ret {O A} (a : A) : M O A := fun w => (Ok a, w).
Definition raise {O A} (e : exn) : M O A := fun w => (Raise e, w).
Definition lift {O A} (r : res A) : M O A := fun w => (r, w).
Definition bind {O A B} (m : M O A) (k : A -> M O B) : M O B :=
  fun w =>
    match m w with
    | (Ok a, w') => k a w'
    | (Raise e, w') => (Raise e, w')
    end.

Definition get_self {O} : M O O := fun w => (Ok (self w), w).
Definition set_self {O} (o : O) : M O unit :=
  fun w => (Ok tt, {| self := o; calls := calls w |}).

Declare Scope http_scope.
Delimit Scope http_scope with http.
Notation "x <- m ;; k" := (bind m (fun x => k))
  (at level 100, m at next level, right associativity) : http_scope.
Notation "m ;; k" := (bind m (fun _ => k))
  (at level 100, right associativity) : http_scope.

(** Modelled from the spec: [request] and [bot_request] of the
    Flask-Discord client, whose source is not at hand.  A call takes a
    route, a method and an optional JSON body, performs exactly one HTTP
    request and returns the decoded response body; a failure of the
    remote API is raised. *)
Definition send {O} `{Client} (c : Call) : M O value :=
  fun w => (respond (calls w) c, {| self := self w; calls := calls w ++ [c] |}).

(** [DiscordModelsBase._request] and [DiscordModelsBase._bot_request]. *)
Definition _request {O} `{Client} (route : string) (method : string)
    (json : option value) : M O value :=
  send {| bot := false; method := method; route := route; json := json |}.

Definition _bot_request {O} `{Client} (route : string) (method : string)
    (json : option value) : M O value :=
  send {| bot := true; method := method; route := route; json := json |}.

End Http.

(* ===================================================================== *)
(** ** base.py: [DiscordModelsBase]                                        *)
(* ===================================================================== *)

Module Base.
Import Http.

(** The class attributes [fetch_from_api] reads, and the constructor
    [cls(payload)] ([None]) or [cls(payload, guild_id)] ([Some guild_id]). *)
Record Class (T : Type) : Type := {
  ROUTE : string;
  BOT : bool;
  MANY : bool;
  new : value -> option Z -> res T;
}.
Arguments ROUTE {T} _.
Arguments BOT {T} _.
Arguments MANY {T} _.
Arguments new {T} _ _ _.

(** What [fetch_from_api] returns: an instance or a list of instances. *)
Inductive fetched (T : Type) : Type :=
| One (x : T)
| Many (xs : list T).
Arguments One {T} x.
Arguments Many {T} xs.

(** The items a [for] loop draws from a JSON value. *)
Definition iter (v : value) : res (list value) :=
  match v with
  | VList l => Ok l
  | VDict d => Ok (map (fun kv => VStr (fst kv)) d)
  | VStr s => Ok (map (fun c => VStr (String c EmptyString)) (list_ascii_of_string s))
  | VNone | VBool _ | VInt _ | VFloat _ => Raise TypeError
  end.

Fixpoint new_each {T} (cls : Class T) (items : list value) : res (list T) :=
  match items with
  | [] => Ok []
  | item :: items' =>
      let? x := new cls item None in
      let? xs := new_each cls items' in
      Ok (x :: xs)
  end.

(** [DiscordModelsBase.fetch_from_api(guild_id=0)]. *)
Definition fetch_from_api {O T} `{Client} (cls : Class T) (guild_id : Z)
    : M O (fetched T) :=
  (let route :=
     if negb (guild_id =? 0)%Z
     then replace (ROUTE cls) "{guild_id}" (str_of_Z guild_id)
     else ROUTE cls in
   let request_method := if BOT cls then _bot_request else _request in
   payload <- request_method route "GET" None ;;
   if (guild_id =? 0)%Z then
     if MANY cls then
       lift (let? items := iter payload in
             let? xs := new_each cls items in
             Ok (Many xs))
     else
       lift (let? x := new cls payload None in Ok (One x))
   else
     lift (let? x := new cls payload (Some guild_id) in Ok (One x)))%http.

End Base.

(* ===================================================================== *)
(** ** integration.py                                                      *)
(* ===================================================================== *)

Module Integration.

Record t : Type := {
  _payload : value;
  id : Z;
  name : value;
  type : value;
  enabled : value;
  syncing : value;
  role_id : Z;
  expire_behaviour : value;
  expire_grace_period : value;
  account : value;
  synced_at : value;
  enable_emoticons : value;
  subscriber_count : value;
  revoked : value;
  application : value;
  scopes : value;
}.

(** [Integration.__init__(self, payload)]. *)
Definition __init__ (payload : value) : res t :=
  let? id_raw := get payload "id" (VInt 0) in
  let? id := int id_raw in
  let? name := get payload "name" VNone in
  let? type := get payload "type" VNone in
  let? enabled := get payload "enabled" VNone in
  let? syncing := get payload "syncing" VNone in
  let? role_id_raw := get payload "role_id" (VInt 0) in
  let? role_id := int role_id_raw in
  let? expire_behaviour := get payload "expire_behaviour" VNone in
  let? expire_grace_period := get payload "expire_grace_period" VNone in
  let? account := get payload "account" VNone in
  let? synced_at := get payload "synced_at" VNone in
  let? enable_emoticons := get payload "enable_emoticons" (VBool false) in
  let? subscriber_count := get payload "subscriber_count" VNone in
  let? revoked := get payload "revoked" (VBool false) in
  let? application := get payload "application" VNone in
  let? scopes := get payload "scopes" VNone in
  Ok {| _payload := payload; id := id; name := name; type := type;
        enabled := enabled; syncing := syncing; role_id := role_id;
        expire_behaviour := expire_behaviour;
        expire_grace_period := expire_grace_period; account := account;
        synced_at := synced_at; enable_emoticons := enable_emoticons;
        subscriber_count := subscriber_count; revoked := revoked;
        application := application; scopes := scopes |}.

End Integration.

(* ===================================================================== *)
(** ** member.py                                                           *)
(* ===================================================================== *)

Module GuildMember.
Import Http.

Record t : Type := {
  _payload : value;
  _guild_id : Z;
  user : value;
  nick : value;
  avatar_hash : value;
  roles : value;
  joined_at : value;
  premium_since : value;
  deaf : value;
  mute : value;
  flags : value;
  pending : value;
  permissions : value;
  communication_disabled_until : value;
  guild_id : Z;
  id : Z;
}.

(** [GuildMember.__init__(self, payload, guild_id)]. *)
Definition __init__ (payload : value) (guild_id : Z) : res t :=
  let? user := get payload "user" VNone in
  let? nick := get payload "nick" VNone in
  let? avatar_hash := get payload "avatar" VNone in
  let? roles := get payload "roles" VNone in
  let? joined_at := get payload "joined_at" VNone in
  let? premium_since := get payload "premium_since" VNone in
  let? deaf := get payload "deaf" VNone in
  let? mute := get payload "mute" VNone in
  let? flags := get payload "flags" VNone in
  let? pending := get payload "pending" (VBool false) in
  let? permissions := get payload "permissions" (VInt 0) in
  let? communication_disabled_until :=
    get payload "communication_disabled_until" VNone in
  let? id_raw := get user "id" VNone in
  let? id := int id_raw in
  Ok {| _payload := payload; _guild_id := guild_id; user := user;
        nick := nick; avatar_hash := avatar_hash; roles := roles;
        joined_at := joined_at; premium_since := premium_since;
        deaf := deaf; mute := mute; flags := flags; pending := pending;
        permissions := permissions;
        communication_disabled_until := communication_disabled_until;
        guild_id := guild_id; id := id |}.

(** [GuildMember(payload)] lacks the required argument [guild_id]. *)
Definition new (payload : value) (guild_id : option Z) : res t :=
  match guild_id with
  | Some g => __init__ payload g
  | None => Raise TypeError
  end.

Definition cls : Base.Class t :=
  {| Base.ROUTE := "/users/@me/guilds/{guild_id}/member";
     Base.BOT := false;
     Base.MANY := false;
     Base.new := new |}.

(** [GuildMember.is_avatar_animated]. *)
Definition is_avatar_animated (self : t) : res bool :=
  match startswith (avatar_hash self) "a_" with
  | Ok b => Ok b
  | Raise AttributeError => Ok false
  | Raise e => Raise e
  end.

(** [GuildMember.icon_url]; [None] is Python's [None]. *)
Definition icon_url `{Builtins} `{Configs} (self : t) : res (option string) :=
  if negb (truthy (avatar_hash self)) then Ok None
  else
    let? animated := is_avatar_animated self in
    let image_format :=
      if animated
      then DISCORD_ANIMATED_IMAGE_FORMAT else DISCORD_IMAGE_FORMAT in
    let? url :=
      format DISCORD_GUILD_MEMBER_AVATAR_BASE_URL []
        [("guild_id", VInt (_guild_id self)); ("user_id", VInt (id self));
         ("avatar_hash", avatar_hash self); ("format", VStr image_format)] in
    Ok (Some url).

(** The request [fetch_from_api] issues: the route has its placeholder
    filled in unless the guild ID is 0. *)
Definition fetch_call (guild_id : Z) : Call :=
  {| bot := false;
     method := "GET";
     route :=
       if negb (guild_id =? 0)%Z
       then replace "/users/@me/guilds/{guild_id}/member" "{guild_id}"
              (str_of_Z guild_id)
       else "/users/@me/guilds/{guild_id}/member";
     json := None |}.

(** [GuildMember.fetch_from_api(guild_id, cache=False)], the form in which
    [user.py] calls it: without the cache update the method is its
    [super()] call. *)
Definition fetch_from_api {O} `{Client} (guild_id : Z) : M O (Base.fetched t) :=
  Base.fetch_from_api cls guild_id.

End GuildMember.

(* ===================================================================== *)
(** ** user.py                                                             *)
(* ===================================================================== *)

Module Guild.

(** Modelled from the spec: the class [Guild] of [flask_discord/models/guild.py],
    which is not among the sources: a read-only snapshot of a guild payload
    whose identity is its numeric ID. *)
Record t : Type := {
  _payload : value;
  id : Z;
}.

End Guild.

Module User.
Import Http.

Record t : Type := {
  _payload : value;
  id : Z;
  username : value;
  discriminator : value;
  avatar_hash : value;
  bot : value;
  mfa_enabled : value;
  locale : value;
  verified : value;
  email : value;
  flags : value;
  premium_type : value;
  is_migrated : bool;
  global_name : value;
  (* The caches: guild ID to guild in insertion order ([None] until the
     guilds are fetched), guild ID to guild member, and the connections. *)
  _guilds : option (list (Z * Guild.t));
  _guild_members : gmap Z GuildMember.t;
  connections : option (list value);
}.

(** [User.__init__(self, payload)]. *)
Definition __init__ (payload : value) : res t :=
  let? id_raw := getitem payload "id" in
  let? id := int id_raw in
  let? username := getitem payload "username" in
  let? discriminator := getitem payload "discriminator" in
  let? avatar_hash := get payload "avatar" discriminator in
  let? bot := get payload "bot" (VBool false) in
  let? mfa_enabled := get payload "mfa_enabled" VNone in
  let? locale := get payload "locale" VNone in
  let? verified := get payload "verified" VNone in
  let? email := get payload "email" VNone in
  let? flags := get payload "flags" VNone in
  let? premium_type := get payload "premium_type" VNone in
  let? discriminator' := get payload "discriminator" VNone in
  let is_migrated := eq_str discriminator' "0" in
  let? global_name :=
    if is_migrated then
      let? global_name := get payload "global_name" VNone in
      let? username' := get payload "username" VNone in
      Ok (py_or global_name username')
    else Ok VNone in
  Ok {| _payload := payload; id := id; username := username;
        discriminator := discriminator; avatar_hash := avatar_hash;
        bot := bot; mfa_enabled := mfa_enabled; locale := locale;
        verified := verified; email := email; flags := flags;
        premium_type := premium_type; is_migrated := is_migrated;
        global_name := global_name;
        _guilds := None; _guild_members := ∅; connections := None |}.

(** [User(payload, guild_id)] has one argument too many. *)
Definition new (payload : value) (guild_id : option Z) : res t :=
  match guild_id with
  | None => __init__ payload
  | Some _ => Raise TypeError
  end.

Definition cls : Base.Class t :=
  {| Base.ROUTE := "/users/@me";
     Base.BOT := false;
     Base.MANY := false;
     Base.new := new |}.

(** The property [User.guilds]: the cached guilds as a list, [None] when
    there is no cache. *)
Definition guilds (self : t) : option (list Guild.t) :=
  match _guilds self with
  | Some cache => Some (map snd cache)
  | None => None
  end.

(** The property [User.guild_members]. *)
Definition guild_members (self : t) : gmap Z GuildMember.t :=
  _guild_members self.

Definition with_guild_members (self : t) (members : gmap Z GuildMember.t) : t :=
  {| _payload := _payload self; id := id self; username := username self;
     discriminator := discriminator self; avatar_hash := avatar_hash self;
     bot := bot self; mfa_enabled := mfa_enabled self; locale := locale self;
     verified := verified self; email := email self; flags := flags self;
     premium_type := premium_type self; is_migrated := is_migrated self;
     global_name := global_name self;
     _guilds := _guilds self; _guild_members := members;
     connections := connections self |}.

(** The setter of [User.guilds]: [self._guilds = value]. *)
Definition with_guilds (self : t) (value : option (list (Z * Guild.t))) : t :=
  {| _payload := _payload self; id := id self; username := username self;
     discriminator := discriminator self; avatar_hash := avatar_hash self;
     bot := bot self; mfa_enabled := mfa_enabled self; locale := locale self;
     verified := verified self; email := email self; flags := flags self;
     premium_type := premium_type self; is_migrated := is_migrated self;
     global_name := global_name self;
     _guilds := value; _guild_members := _guild_members self;
     connections := connections self |}.

(** The setter of [User.guild_members]:
    [self._guild_members[value.guild_id] = value].  A list has no
    attribute [guild_id]. *)
Definition set_guild_members (value : Base.fetched GuildMember.t) : M t unit :=
  match value with
  | Base.One member =>
      (self <- get_self ;;
       set_self (with_guild_members self
                   (<[GuildMember.guild_id member := member]> (_guild_members self))))%http
  | Base.Many _ => raise AttributeError
  end.

(** [User.is_avatar_animated]. *)
Definition is_avatar_animated (self : t) : res bool :=
  match startswith (avatar_hash self) "a_" with
  | Ok b => Ok b
  | Raise AttributeError => Ok false
  | Raise e => Raise e
  end.

(** [User.default_avatar_url]. *)
Definition default_avatar_url `{Builtins} `{Configs} (self : t) : res string :=
  format DISCORD_DEFAULT_USER_AVATAR_BASE_URL
    [VInt (Z.shiftr (id self) 22 mod 6)] [].

(** [User.avatar_url]. *)
Definition avatar_url `{Builtins} `{Configs} (self : t) : res string :=
  if negb (truthy (avatar_hash self)) then default_avatar_url self
  else
    let? animated := is_avatar_animated self in
    let image_format :=
      if animated
      then DISCORD_ANIMATED_IMAGE_FORMAT else DISCORD_IMAGE_FORMAT in
    format DISCORD_USER_AVATAR_BASE_URL []
      [("user_id", VInt (id self)); ("avatar_hash", avatar_hash self);
       ("format", VStr image_format)].

(** The route of [add_to_guild]: [f"/guilds/{guild_id}/members/{self.id}"]. *)
Definition add_to_guild_route (guild_id : Z) (self : t) : string :=
  "/guilds/" +:+ str_of_Z guild_id +:+ "/members/" +:+ str_of_Z (id self).

(** The request [add_to_guild] issues once it holds an access token. *)
Definition add_to_guild_call (guild_id : Z) (self : t) (access_token : value)
    : Call :=
  {| Http.bot := true;
     Http.method := "PUT";
     Http.route := add_to_guild_route guild_id self;
     Http.json := Some (VDict [("access_token", access_token)]) |}.

(** [User.add_to_guild(self, guild_id)]. *)
Definition add_to_guild `{Client} (guild_id : Z) : M t value :=
  match (let? token := get_authorization_token in
         let? access_token := getitem token "access_token" in
         Ok (VDict [("access_token", access_token)])) with
  | Raise (KeyError _) => raise Unauthorized
  | Raise e => raise e
  | Ok data =>
      (self <- get_self ;;
       response <- _bot_request (add_to_guild_route guild_id self) "PUT" (Some data) ;;
       ret (py_or response (VDict [])))%http
  end.

(** [User.fetch_guild_member(self, guild_id)]. *)
Definition fetch_guild_member `{Client} (guild_id : Z)
    : M t (Base.fetched GuildMember.t) :=
  (member <- GuildMember.fetch_from_api guild_id ;;
   set_guild_members member ;;
   ret member)%http.

(** The loop of [fetch_guild_members] over the guilds still to visit. *)
Fixpoint fetch_each `{Client} (todo : list Guild.t) : M t unit :=
  match todo with
  | [] => ret tt
  | guild :: todo' =>
      (member <- GuildMember.fetch_from_api (Guild.id guild) ;;
       set_guild_members member ;;
       fetch_each todo')%http
  end.

(** [User.fetch_guild_members(self)]: iterating over [None] is a
    [TypeError]. *)
Definition fetch_guild_members `{Client} : M t (gmap Z GuildMember.t) :=
  (self <- get_self ;;
   match guilds self with
   | None => raise TypeError
   | Some todo =>
       fetch_each todo ;;
       self' <- get_self ;;
       ret (guild_members self')
   end)%http.

End User.

(** The objects that can stand on the right of [==]: an instance of [User]
    (or of its subclass [Bot]), of [GuildMember], of [Integration], or a
    plain value. *)
Inductive object : Type :=
| UserObject (user : User.t)
| GuildMemberObject (member : GuildMember.t)
| IntegrationObject (integration : Integration.t)
| ValueObject (v : value).

(** [User.__eq__] and [User.__ne__]. *)
Definition User__eq__ (self : User.t) (user : object) : bool :=
  match user with
  | UserObject user => (User.id user =? User.id self)%Z
  | _ => false
  end.

Definition User__ne__ (self : User.t) (user : object) : bool :=
  negb (User__eq__ self user).

(** [GuildMember.__eq__] and [GuildMember.__ne__]. *)
Definition GuildMember__eq__ (self : GuildMember.t) (member : object) : bool :=
  match member with
  | GuildMemberObject member => (GuildMember.id member =? GuildMember.id self)%Z
  | _ => false
  end.

Definition GuildMember__ne__ (self : GuildMember.t) (member : object) : bool :=
  negb (GuildMember__eq__ self member).

(* ===================================================================== *)
(** ** Sample environment                                                  *)
(* ===================================================================== *)

(** Concrete parameters for evaluating the model on examples.  The
    theorems below hold for every choice of them. *)
Module Sample.
Import Http.

(** No example prints a float or a container. *)
Definition builtins : Builtins := {| repr := fun _ => "..." |}.

Definition cdn : string := "https://cdn.discordapp.com/".

Definition configs : Configs := {|
  DISCORD_IMAGE_FORMAT := "png";
  DISCORD_ANIMATED_IMAGE_FORMAT := "gif";
  DISCORD_USER_AVATAR_BASE_URL :=
    [Lit (cdn +:+ "avatars/"); Named "user_id"; Lit "/"; Named "avatar_hash";
     Lit "."; Named "format"];
  DISCORD_DEFAULT_USER_AVATAR_BASE_URL :=
    [Lit (cdn +:+ "embed/avatars/"); Pos 0; Lit ".png"];
  DISCORD_GUILD_MEMBER_AVATAR_BASE_URL :=
    [Lit (cdn +:+ "guilds/"); Named "guild_id"; Lit "/users/"; Named "user_id";
     Lit "/avatars/"; Named "avatar_hash"; Lit "."; Named "format"];
|}.

Definition alice : value :=
  VDict [("id", VStr "123"); ("username", VStr "alice");
         ("discriminator", VStr "0"); ("global_name", VStr "Alice")].

Definition alice_legacy : value :=
  VDict [("id", VStr "123"); ("username", VStr "alice");
         ("discriminator", VStr "4242")].

Definition alice_no_display_name : value :=
  VDict [("id", VStr "123"); ("username", VStr "alice");
         ("discriminator", VStr "0"); ("global_name", VNone)].

Definition member_payload (avatar : value) : value :=
  VDict [("user", VDict [("id", VStr "123"); ("username", VStr "alice")]);
         ("avatar", avatar); ("roles", VList [])].

(** A remote API that answers every request with the same member object,
    and a session holding an access token. *)
Definition client : Client := {|
  respond := fun _ _ => Ok (member_payload VNone);
  get_authorization_token := Ok (VDict [("access_token", VStr "token")]);
|}.

(** A session without an access token. *)
Definition client_logged_out : Client := {|
  respond := fun _ _ => Ok (VStr EmptyString);
  get_authorization_token := Ok (VDict [("token_type", VStr "Bearer")]);
|}.

(** A remote API that answers with an empty body. *)
Definition client_empty_body : Client := {|
  respond := fun _ _ => Ok (VStr EmptyString);
  get_authorization_token := Ok (VDict [("access_token", VStr "token")]);
|}.

Definition guild (id : Z) : Guild.t :=
  {| Guild._payload := VDict [("id", VStr (str_of_Z id))]; Guild.id := id |}.

Definition user_of (payload : value) : User.t :=
  match User.__init__ payload with
  | Ok u => u
  | Raise _ =>
      {| User._payload := payload; User.id := 0; User.username := VNone;
         User.discriminator := VNone; User.avatar_hash := VNone;
         User.bot := VNone; User.mfa_enabled := VNone; User.locale := VNone;
         User.verified := VNone; User.email := VNone; User.flags := VNone;
         User.premium_type := VNone; User.is_migrated := false;
         User.global_name := VNone; User._guilds := None;
         User._guild_members := ∅; User.connections := None |}
  end.

Definition member_of (payload : value) (guild_id : Z) : GuildMember.t :=
  match GuildMember.__init__ payload guild_id with
  | Ok m => m
  | Raise _ =>
      {| GuildMember._payload := payload; GuildMember._guild_id := guild_id;
         GuildMember.user := VNone; GuildMember.nick := VNone;
         GuildMember.avatar_hash := VNone; GuildMember.roles := VNone;
         GuildMember.joined_at := VNone; GuildMember.premium_since := VNone;
         GuildMember.deaf := VNone; GuildMember.mute := VNone;
         GuildMember.flags := VNone; GuildMember.pending := VNone;
         GuildMember.permissions := VNone;
         GuildMember.communication_disabled_until := VNone;
         GuildMember.guild_id := guild_id; GuildMember.id := 0 |}
  end.

(** Alice with one member object already stored, for guild 5. *)
Definition alice_in_guild_5 : User.t :=
  User.with_guild_members (user_of alice)
    {[ 5%Z := member_of (member_payload (VStr "9c0d")) 5 ]}.

End Sample.

(* ===================================================================== *)
(** ** The remaining methods of base.py, member.py and user.py             *)
(* ===================================================================== *)

(** String forms and the raw payload. *)
Module Display.

(** [DiscordModelsBase.to_json], inherited by [User] and [GuildMember]. *)
Definition User_to_json (self : User.t) : value := User._payload self.
Definition GuildMember_to_json (self : GuildMember.t) : value :=
  GuildMember._payload self.

(** The property [User.name]. *)
Definition User_name (self : User.t) : value := User.username self.

(** [User.__str__]. *)
Definition User__str__ `{Builtins} (self : User.t) : string :=
  if User.is_migrated self && truthy (User.global_name self) then
    str (User.global_name self) +:+ " (@" +:+ str (User_name self) +:+ ")"
  else if User.is_migrated self then
    "@" +:+ str (User_name self)
  else
    str (User_name self) +:+ "#" +:+ str (User.discriminator self).

(** [GuildMember.__str__]: the operands of [or] are evaluated from the
    left, only as far as needed. *)
Definition GuildMember__str__ (self : GuildMember.t) : res value :=
  if truthy (GuildMember.nick self) then Ok (GuildMember.nick self)
  else
    let? global_name := get (GuildMember.user self) "global_name" VNone in
    if truthy global_name then Ok global_name
    else get (GuildMember.user self) "username" VNone.

(** [str(member)]: [__str__] must return a string. *)
Definition str_of_member (self : GuildMember.t) : res string :=
  let? shown := GuildMember__str__ self in
  match shown with
  | VStr s => Ok s
  | _ => Raise TypeError
  end.

End Display.

(** The guild cache of a user. *)
Module Guilds.
Import Http.

(** [d[k] = v] on an insertion-ordered dictionary: an existing key keeps
    its place, a new one goes last. *)
Fixpoint dict_set (k : Z) (v : Guild.t) (d : list (Z * Guild.t))
    : list (Z * Guild.t) :=
  match d with
  | [] => [(k, v)]
  | (k', v') :: d' =>
      if (k =? k')%Z then (k', v) :: d' else (k', v') :: dict_set k v d'
  end.

(** [{guild.id: guild for guild in guilds}], continuing from [d]. *)
Fixpoint dict_of_guilds (guilds : list Guild.t) (d : list (Z * Guild.t))
    : list (Z * Guild.t) :=
  match guilds with
  | [] => d
  | guild :: guilds' => dict_of_guilds guilds' (dict_set (Guild.id guild) guild d)
  end.

(** Modelled from the spec: [Guild.fetch_from_api(cache=False)] and
    [UserConnection.fetch_from_api(cache=False)], whose sources
    ([guild.py], [connections.py]) are not at hand: list fetches that, with
    the cache update switched off, touch nothing but the network.  They are
    parameters: given the requests issued so far they yield an outcome and
    the extended log. *)
Class Siblings : Type := {
  Guild_fetch_from_api : list Call -> res (Base.fetched Guild.t) * list Call;
  UserConnection_fetch_from_api : list Call -> res (list value) * list Call;
}.

Definition on_log {O A} (f : list Call -> res A * list Call) : M O A :=
  fun w => let (r, log) := f (calls w) in (r, {| self := self w; calls := log |}).

Definition with_connections (self : User.t) (value : option (list value)) : User.t :=
  {| User._payload := User._payload self; User.id := User.id self;
     User.username := User.username self;
     User.discriminator := User.discriminator self;
     User.avatar_hash := User.avatar_hash self; User.bot := User.bot self;
     User.mfa_enabled := User.mfa_enabled self; User.locale := User.locale self;
     User.verified := User.verified self; User.email := User.email self;
     User.flags := User.flags self; User.premium_type := User.premium_type self;
     User.is_migrated := User.is_migrated self;
     User.global_name := User.global_name self;
     User._guilds := User._guilds self;
     User._guild_members := User._guild_members self;
     User.connections := value |}.

(** [User.fetch_guilds(self)].  A single guild in place of a list cannot
    be iterated. *)
Definition fetch_guilds `{Siblings} : M User.t (option (list Guild.t)) :=
  (fetched <- on_log Guild_fetch_from_api ;;
   match fetched with
   | Base.One _ => raise TypeError
   | Base.Many guilds =>
       self <- get_self ;;
       set_self (User.with_guilds self (Some (dict_of_guilds guilds []))) ;;
       self' <- get_self ;;
       ret (User.guilds self')
   end)%http.

(** [User.fetch_connections(self)]. *)
Definition fetch_connections `{Siblings} : M User.t (option (list value)) :=
  (fetched <- on_log UserConnection_fetch_from_api ;;
   self <- get_self ;;
   set_self (with_connections self (Some fetched)) ;;
   self' <- get_self ;;
   ret (User.connections self'))%http.

End Guilds.

(** The users cache and the session. *)
Module App.
Import Http.

(** Modelled from the spec: the state of the Flask-Discord client that
    the models reach through [current_app.discord] and [session], whose
    sources are not at hand.  The users cache is a plain mapping from user
    ID to [User] without eviction; the session holds one key,
    ["DISCORD_USER_ID"], and [current_app.discord.user_id] reads it. *)
Record t : Type := {
  users_cache : gmap Z User.t;
  DISCORD_USER_ID : option Z;
}.

Definition user_id (app : t) : option Z := DISCORD_USER_ID app.

(** [users_cache.get(key)]; no user is cached under the key [None]. *)
Definition cache_get (app : t) (key : option Z) : option User.t :=
  match key with
  | Some k => users_cache app !! k
  | None => None
  end.

Definition cache_put (app : t) (key : Z) (user : User.t) : t :=
  {| users_cache := <[key := user]> (users_cache app);
     DISCORD_USER_ID := DISCORD_USER_ID app |}.

Definition session_put (app : t) (id : Z) : t :=
  {| users_cache := users_cache app; DISCORD_USER_ID := Some id |}.

(** The request for the current user that [User.fetch_from_api] issues. *)
Definition current_user_call : Call :=
  {| bot := false; method := "GET"; route := "/users/@me"; json := None |}.

(** [User.get_from_cache()]. *)
Definition get_from_cache (app : t) : option User.t :=
  cache_get app (user_id app).

(** [GuildMember.fetch_from_api(guild_id, cache)].  The current user, when
    cached, is the object held under the session's user ID, so the
    assignment through the setter shows in the cache; the [AttributeError]
    of assigning on [None], or of a list without [guild_id], is
    swallowed. *)
Definition GuildMember_fetch_from_api `{Client} (guild_id : Z) (cache : bool)
    : M t (Base.fetched GuildMember.t) :=
  (member <- Base.fetch_from_api GuildMember.cls guild_id ;;
   (if cache then
      app <- get_self ;;
      match user_id app, cache_get app (user_id app), member with
      | Some key, Some user, Base.One m =>
          set_self (cache_put app key
                      (User.with_guild_members user
                         (<[GuildMember.guild_id m := m]> (User._guild_members user))))
      | _, _, _ => ret tt
      end
    else ret tt) ;;
   ret member)%http.

(** A method called on the user [u] that the cache holds under its ID:
    what the method does to the object shows in the cache, also when the
    method raises. *)
Definition on_cached {A} (u : User.t) (method : M User.t A) : M t (A * User.t) :=
  fun w =>
    let (r, w') := method {| self := u; calls := calls w |} in
    (match r with
     | Ok a => Ok (a, self w')
     | Raise e => Raise e
     end,
     {| self := cache_put (self w) (User.id u) (self w'); calls := calls w' |}).

(** [User.fetch_from_api(guilds, connections, members)].  The loop at its
    end calls [self.fetch_guild_members(guild.id)], one argument more than
    the method takes. *)
Definition User_fetch_from_api `{Client} `{Guilds.Siblings}
    (guilds connections members : bool) : M t User.t :=
  (fetched <- Base.fetch_from_api User.cls 0 ;;
   match fetched with
   | Base.Many _ => raise AttributeError
   | Base.One self0 =>
       app <- get_self ;;
       set_self (session_put (cache_put app (User.id self0) self0) (User.id self0)) ;;
       self1 <- (if guilds
                 then r <- on_cached self0 Guilds.fetch_guilds ;; ret (snd r)
                 else ret self0) ;;
       self2 <- (if connections
                 then r <- on_cached self1 Guilds.fetch_connections ;; ret (snd r)
                 else ret self1) ;;
       (if guilds && members then
          match User.guilds self2 with
          | None => raise TypeError
          | Some [] => ret tt
          | Some (_ :: _) => raise TypeError
          end
        else ret tt) ;;
       ret self2
   end)%http.

End App.

(** [members] are the members constructed, one per guild of [todo] and in
    that order, from the answers of the remote API to the member requests
    sent one after the other from the log [log] on. *)
Fixpoint fetched_in_turn `{Http.Client} (log : list Http.Call)
    (todo : list Guild.t) (members : list GuildMember.t) : Prop :=
  match todo, members with
  | [], [] => True
  | guild :: todo', member :: members' =>
      (exists payload,
         Http.respond log (GuildMember.fetch_call (Guild.id guild)) = Ok payload
         /\ GuildMember.__init__ payload (Guild.id guild) = Ok member)
      /\ fetched_in_turn (log ++ [GuildMember.fetch_call (Guild.id guild)])
           todo' members'
  | _, _ => False
  end.

(** Storing members one after the other, each under its guild ID. *)
Definition store_all (mapping : gmap Z GuildMember.t)
    (members : list GuildMember.t) : gmap Z GuildMember.t :=
  foldl (fun acc member => <[GuildMember.guild_id member := member]> acc)
    mapping members.

(** Every stored member sits under the ID of its own guild. *)
Definition keyed_by_guild (members : gmap Z GuildMember.t) : Prop :=
  forall key member,
    members !! key = Some member -> GuildMember.guild_id member = key.

(** More payloads and clients for evaluating the model. *)
Module Fixtures.
Import Http.

Definition bob : value :=
  VDict [("id", VStr "456"); ("username", VStr "bob");
         ("discriminator", VStr "0007")].

(** A remote API that answers the request for the current user with
    Alice and fails every other request. *)
Definition client_alice : Client := {|
  respond := fun _ c =>
    if String.eqb (route c) "/users/@me" then Ok Sample.alice
    else Raise (HTTPError 404);
  get_authorization_token := Ok (VDict [("access_token", VStr "token")]);
|}.

(** A remote API that knows the member of guild 1 only. *)
Definition client_guild_1 : Client := {|
  respond := fun _ c =>
    if String.eqb (route c) "/users/@me/guilds/1/member"
    then Ok (Sample.member_payload VNone)
    else Raise (HTTPError 404);
  get_authorization_token := Ok (VDict [("access_token", VStr "token")]);
|}.

Definition guilds_call : Call :=
  {| bot := false; method := "GET"; route := "/users/@me/guilds"; json := None |}.

(** Siblings that return two guilds, or none. *)
Definition two_guilds : Guilds.Siblings := {|
  Guilds.Guild_fetch_from_api := fun log =>
    (Ok (Base.Many [Sample.guild 1; Sample.guild 2]), log ++ [guilds_call]);
  Guilds.UserConnection_fetch_from_api := fun log => (Ok [], log);
|}.

Definition no_guilds : Guilds.Siblings := {|
  Guilds.Guild_fetch_from_api := fun log => (Ok (Base.Many []), log ++ [guilds_call]);
  Guilds.UserConnection_fetch_from_api := fun log => (Ok [], log);
|}.

(** A list-valued class, as [MANY = True] makes one. *)
Definition many_users : Base.Class User.t :=
  {| Base.ROUTE := "/users"; Base.BOT := true; Base.MANY := true;
     Base.new := User.new |}.

Definition client_two_users : Client := {|
  respond := fun _ _ => Ok (VList [Sample.alice; bob]);
  get_authorization_token := Ok (VDict []);
|}.

Definition empty_app : App.t :=
  {| App.users_cache := ∅; App.DISCORD_USER_ID := None |}.

Definition app_with_alice : App.t :=
  {| App.users_cache := {[ 123%Z := Sample.user_of Sample.alice;
                          456%Z := Sample.user_of bob ]};
     App.DISCORD_USER_ID := Some 123%Z |}.

End Fixtures.

(* ===================================================================== *)
(** ** The metaclass check                                                 *)
(* ===================================================================== *)

Section Metaclass.
Import Meta.

(** The classes of the package pass the check; [Bot] inherits its route
    from [User]. *)
Example package_classes_defined :
  class_statement DiscordModelsBase = Ok DiscordModelsBase
  /\ class_statement User = Ok User
  /\ class_statement Bot = Ok Bot
  /\ class_statement GuildMember = Ok GuildMember.
Proof. repeat split. Qed.

(** C1.  A class created by the metaclass whose name is not
    "DiscordModelsBase" and whose [ROUTE] attribute is empty or otherwise
    falsy is rejected with [NotImplementedError] by the class statement
    itself, so no class ever exists to instantiate or fetch; a class with a
    truthy [ROUTE] is defined. *)
Theorem route_checked_at_definition (cls : class) :
  name cls <> "DiscordModelsBase" ->
  (truthy (ROUTE cls) = false ->
     class_statement cls = Raise (NotImplementedError (message (name cls))))
  /\ (truthy (ROUTE cls) = true -> class_statement cls = Ok cls).
Proof.
  intros Hname. unfold class_statement, __init__.
  apply String.eqb_neq in Hname. rewrite Hname.
  split; intros ->; reflexivity.
Qed.

Lemma route_checked_at_definition_witness :
  class_statement routeless
  = Raise (NotImplementedError
             "ROUTE must be specified in a Discord model: UserConnection.")
  /\ class_statement Meta.GuildMember = Ok Meta.GuildMember.
Proof.
  split.
  - apply (route_checked_at_definition routeless); [discriminate | reflexivity].
  - apply (route_checked_at_definition Meta.GuildMember); [discriminate | reflexivity].
Defined.

End Metaclass.

(* ===================================================================== *)
(** ** Equality                                                            *)
(* ===================================================================== *)

Section Equality.

(** C7.  Two [User] instances compare equal exactly when their IDs are
    equal, whatever their other fields hold, and [!=] is the negation of
    [==]. *)
Theorem user_eq_iff_same_id (x y : User.t) :
  (User__eq__ x (UserObject y) = true <-> User.id x = User.id y)
  /\ User__ne__ x (UserObject y) = negb (User__eq__ x (UserObject y)).
Proof.
  split; [|reflexivity].
  unfold User__eq__. rewrite Z.eqb_eq. split; congruence.
Qed.

(** Two users that differ in everything but the ID. *)
Example user_eq_ignores_other_fields :
  let x := Sample.user_of Sample.alice in
  let y := Sample.user_of Sample.alice_legacy in
  x <> y /\ User__eq__ x (UserObject y) = true /\ User__ne__ x (UserObject y) = false.
Proof. repeat split. discriminate. Qed.

(** A user never equals an object of another class. *)
Lemma user_eq_other_class (x : User.t) (o : object) :
  (forall y, o <> UserObject y) -> User__eq__ x o = false.
Proof. destruct o; intros H; try reflexivity. now destruct (H user). Qed.

(** C8.  Two [GuildMember] instances with the same user ID compare equal,
    also when their guilds differ, and the guild plays no role in the
    comparison: [==] holds exactly when the user IDs are equal, so two
    members of the same guild with different user IDs are unequal, and
    [==] gives the same answer whatever guilds the two members are moved
    to. *)
Theorem member_eq_ignores_guild (x y : GuildMember.t) :
  (GuildMember.id x = GuildMember.id y ->
   GuildMember__eq__ x (GuildMemberObject y) = true)
  /\ (GuildMember__eq__ x (GuildMemberObject y) = true <->
      GuildMember.id x = GuildMember.id y)
  /\ (forall x' y' : GuildMember.t,
        GuildMember.id x' = GuildMember.id x ->
        GuildMember.id y' = GuildMember.id y ->
        GuildMember__eq__ x' (GuildMemberObject y')
        = GuildMember__eq__ x (GuildMemberObject y))
  /\ GuildMember__ne__ x (GuildMemberObject y)
     = negb (GuildMember__eq__ x (GuildMemberObject y)).
Proof.
  unfold GuildMember__ne__, GuildMember__eq__.
  split; [|split; [|split; [|reflexivity]]].
  - intros Hid. apply Z.eqb_eq. congruence.
  - rewrite Z.eqb_eq. split; congruence.
  - intros x' y' -> ->. reflexivity.
Qed.

Lemma member_eq_ignores_guild_witness :
  let x := Sample.member_of (Sample.member_payload VNone) 1 in
  let y := Sample.member_of (Sample.member_payload VNone) 2 in
  let z := Sample.member_of (VDict [("user", VDict [("id", VStr "456")])]) 1 in
  (GuildMember.guild_id x <> GuildMember.guild_id y
   /\ GuildMember__eq__ x (GuildMemberObject y) = true)
  /\ (GuildMember.guild_id x = GuildMember.guild_id z
      /\ GuildMember__eq__ x (GuildMemberObject z) <> true).
Proof.
  split; (split; [try discriminate; reflexivity|]).
  - apply (proj1 (member_eq_ignores_guild
                    (Sample.member_of (Sample.member_payload VNone) 1)
                    (Sample.member_of (Sample.member_payload VNone) 2))).
    reflexivity.
  - intros Heq.
    apply (proj1 (proj2 (member_eq_ignores_guild
                    (Sample.member_of (Sample.member_payload VNone) 1)
                    (Sample.member_of
                       (VDict [("user", VDict [("id", VStr "456")])]) 1))))
      in Heq.
    discriminate Heq.
Defined.

End Equality.

(* ===================================================================== *)
(** ** Construction from a payload                                         *)
(* ===================================================================== *)

Section Construction.

(** [payload.get(key, dflt)] on a JSON object. *)
Lemma get_dict d key dflt : get (VDict d) key dflt = Ok (default dflt (assoc key d)).
Proof. reflexivity. Qed.

(** A string that begins with a non-empty prefix is truthy. *)
Lemma has_prefix_truthy v c p : has_prefix v (String c p) = true -> truthy v = true.
Proof. destruct v as [| | | |s| |]; try discriminate. now destruct s. Qed.

(** What [User.__init__] does on a JSON object: the three indexed keys
    must be present and the ID convertible; everything else is optional. *)
Lemma User_init_dict d :
  User.__init__ (VDict d) =
  match assoc "id" d with
  | None => Raise (KeyError "id")
  | Some id_raw =>
      match int id_raw with
      | Raise e => Raise e
      | Ok id =>
          match assoc "username" d with
          | None => Raise (KeyError "username")
          | Some username =>
              match assoc "discriminator" d with
              | None => Raise (KeyError "discriminator")
              | Some discriminator =>
                  let is_migrated := eq_str discriminator "0" in
                  Ok {| User._payload := VDict d; User.id := id;
                        User.username := username;
                        User.discriminator := discriminator;
                        User.avatar_hash := default discriminator (assoc "avatar" d);
                        User.bot := default (VBool false) (assoc "bot" d);
                        User.mfa_enabled := default VNone (assoc "mfa_enabled" d);
                        User.locale := default VNone (assoc "locale" d);
                        User.verified := default VNone (assoc "verified" d);
                        User.email := default VNone (assoc "email" d);
                        User.flags := default VNone (assoc "flags" d);
                        User.premium_type := default VNone (assoc "premium_type" d);
                        User.is_migrated := is_migrated;
                        User.global_name :=
                          if is_migrated
                          then py_or (default VNone (assoc "global_name" d)) username
                          else VNone;
                        User._guilds := None; User._guild_members := ∅;
                        User.connections := None |}
              end
          end
      end
  end.
Proof.
  unfold User.__init__, getitem, get.
  destruct (assoc "id" d) as [id_raw|]; [|reflexivity]. cbn [res_bind].
  destruct (int id_raw) as [id|e]; [|reflexivity]. cbn [res_bind].
  destruct (assoc "username" d) as [username|]; [|reflexivity]. cbn [res_bind].
  destruct (assoc "discriminator" d) as [discriminator|]; [|reflexivity].
  cbn [res_bind]. change (default VNone (Some ?x)) with x.
  destruct (eq_str discriminator "0"); reflexivity.
Qed.

(** Only a JSON object can be indexed by ["id"]. *)
Lemma User_init_is_dict payload u :
  User.__init__ payload = Ok u -> exists d, payload = VDict d.
Proof. destruct payload; try discriminate. eauto. Qed.


(** What [GuildMember.__init__] does on a JSON object: the value under
    ["user"] must itself be an object with a convertible ["id"]. *)
Lemma GuildMember_init_dict d guild_id :
  GuildMember.__init__ (VDict d) guild_id =
  match get (default VNone (assoc "user" d)) "id" VNone with
  | Raise e => Raise e
  | Ok id_raw =>
      match int id_raw with
      | Raise e => Raise e
      | Ok id =>
          Ok {| GuildMember._payload := VDict d;
                GuildMember._guild_id := guild_id;
                GuildMember.user := default VNone (assoc "user" d);
                GuildMember.nick := default VNone (assoc "nick" d);
                GuildMember.avatar_hash := default VNone (assoc "avatar" d);
                GuildMember.roles := default VNone (assoc "roles" d);
                GuildMember.joined_at := default VNone (assoc "joined_at" d);
                GuildMember.premium_since :=
                  default VNone (assoc "premium_since" d);
                GuildMember.deaf := default VNone (assoc "deaf" d);
                GuildMember.mute := default VNone (assoc "mute" d);
                GuildMember.flags := default VNone (assoc "flags" d);
                GuildMember.pending := default (VBool false) (assoc "pending" d);
                GuildMember.permissions := default (VInt 0) (assoc "permissions" d);
                GuildMember.communication_disabled_until :=
                  default VNone (assoc "communication_disabled_until" d);
                GuildMember.guild_id := guild_id; GuildMember.id := id |}
      end
  end.
Proof.
  unfold GuildMember.__init__. rewrite !get_dict. cbn [res_bind].
  destruct (get (default VNone (assoc "user" d)) "id" VNone) as [id_raw|];
    [|reflexivity].
  cbn [res_bind]. destruct (int id_raw); reflexivity.
Qed.

(** The two payloads of the specification's examples. *)
Example alice_migrated :
  exists u, User.__init__ Sample.alice = Ok u
    /\ User.id u = 123%Z /\ User.is_migrated u = true
    /\ User.global_name u = VStr "Alice".
Proof. eexists. repeat split. Qed.

Example alice_not_migrated :
  exists u, User.__init__ Sample.alice_legacy = Ok u
    /\ User.is_migrated u = false /\ User.global_name u = VNone
    /\ User.avatar_hash u = VStr "4242".
Proof. eexists. repeat split. Qed.

(** C4, as the code has it.  The constructed [User] is migrated exactly
    when the payload's discriminator is the string "0".  A migrated user's
    global name is the payload's "global_name" when that key is present
    with a truthy value, and the username otherwise (key absent, or present
    with [None] or an empty value); a user that is not migrated has global
    name [None]. *)
Theorem migrated_global_name (payload : value) (u : User.t) :
  User.__init__ payload = Ok u ->
  exists d username,
    payload = VDict d
    /\ assoc "username" d = Some username
    /\ (User.is_migrated u = true <-> assoc "discriminator" d = Some (VStr "0"))
    /\ (User.is_migrated u = true ->
          User.global_name u =
          match assoc "global_name" d with
          | Some v => if truthy v then v else username
          | None => username
          end)
    /\ (User.is_migrated u = false -> User.global_name u = VNone).
Proof.
  intros Hinit. destruct (User_init_is_dict _ _ Hinit) as [d ->].
  rewrite User_init_dict in Hinit.
  destruct (assoc "id" d) as [id_raw|]; [|discriminate].
  destruct (int id_raw) as [id|]; [|discriminate].
  destruct (assoc "username" d) as [username|] eqn:Hname; [|discriminate].
  destruct (assoc "discriminator" d) as [disc|] eqn:Hdisc; [|discriminate].
  injection Hinit as <-. exists d, username. cbn.
  split; [reflexivity|]. split; [exact Hname|]. split; [|split].
  - rewrite Hdisc. split.
    + destruct disc as [| | | |s| |]; try discriminate. cbn.
      intros ->%String.eqb_eq. reflexivity.
    + intros [= ->]. reflexivity.
  - intros ->. unfold py_or. now destruct (assoc "global_name" d).
  - intros ->. reflexivity.
Qed.

Lemma migrated_global_name_witness :
  exists u, User.__init__ Sample.alice_no_display_name = Ok u
    /\ User.is_migrated u = true /\ User.global_name u = VStr "alice".
Proof.
  eexists. split; [reflexivity|].
  destruct (migrated_global_name Sample.alice_no_display_name _ eq_refl)
    as (d & username & [= <-] & [= <-] & Hiff & Hname & _).
  pose proof (proj2 Hiff eq_refl) as Hmig.
  split; [exact Hmig | exact (Hname Hmig)].
Defined.

(** C4 as worded fails: a migrated user whose payload carries the key
    "global_name" with the value [None] does not take its global name from
    that key. *)
Lemma global_name_key_present_not_taken :
  exists d u,
    User.__init__ (VDict d) = Ok u
    /\ User.is_migrated u = true
    /\ assoc "global_name" d = Some VNone
    /\ User.global_name u <> VNone.
Proof.
  eexists _, _. split; [exact (eq_refl : User.__init__ Sample.alice_no_display_name = _)|].
  repeat split. discriminate.
Qed.




(** The docstring of [GuildMember] gives 0 as the default of "flags"; the
    constructor leaves [None] when the key is absent. *)
Example member_flags_absent :
  exists m, GuildMember.__init__ (Sample.member_payload VNone) 7 = Ok m
    /\ GuildMember.flags m = VNone.
Proof. eexists. split; reflexivity. Qed.

End Construction.

(* ===================================================================== *)
(** ** Avatar URLs                                                         *)
(* ===================================================================== *)

Section Avatars.
Context `{Builtins} `{Configs}.

(** [is_avatar_animated] never raises: it tells whether the hash is a
    string that begins with a_, the [AttributeError] of a hash without
    [startswith] counting as no. *)
Lemma User_is_avatar_animated_spec u :
  User.is_avatar_animated u = Ok (has_prefix (User.avatar_hash u) "a_").
Proof. unfold User.is_avatar_animated. now destruct (User.avatar_hash u). Qed.

Lemma GuildMember_is_avatar_animated_spec m :
  GuildMember.is_avatar_animated m
  = Ok (has_prefix (GuildMember.avatar_hash m) "a_").
Proof.
  unfold GuildMember.is_avatar_animated. now destruct (GuildMember.avatar_hash m).
Qed.

(** The index of the default avatar is one of 0..5, also for a negative ID. *)
Lemma default_avatar_index_range (id : Z) : (0 <= Z.shiftr id 22 mod 6 < 6)%Z.
Proof. apply Z.mod_pos_bound. lia. Qed.

(** C2.  A hash that begins with "a_" selects the animated image format,
    any other truthy hash the static one, for [User.avatar_url] and for
    [GuildMember.icon_url] alike; with an absent or falsy hash
    [GuildMember.icon_url] is [None] and [User.avatar_url] is the default
    avatar URL formatted with [(id >> 22) mod 6]. *)
Theorem avatar_url_selection (u : User.t) (m : GuildMember.t) :
  (has_prefix (User.avatar_hash u) "a_" = true ->
     User.avatar_url u =
     format DISCORD_USER_AVATAR_BASE_URL []
       [("user_id", VInt (User.id u)); ("avatar_hash", User.avatar_hash u);
        ("format", VStr DISCORD_ANIMATED_IMAGE_FORMAT)])
  /\ (truthy (User.avatar_hash u) = true ->
      has_prefix (User.avatar_hash u) "a_" = false ->
      User.avatar_url u =
      format DISCORD_USER_AVATAR_BASE_URL []
        [("user_id", VInt (User.id u)); ("avatar_hash", User.avatar_hash u);
         ("format", VStr DISCORD_IMAGE_FORMAT)])
  /\ (truthy (User.avatar_hash u) = false ->
      User.avatar_url u =
      format DISCORD_DEFAULT_USER_AVATAR_BASE_URL
        [VInt (Z.shiftr (User.id u) 22 mod 6)] [])
  /\ (has_prefix (GuildMember.avatar_hash m) "a_" = true ->
      GuildMember.icon_url m =
      let? url :=
        format DISCORD_GUILD_MEMBER_AVATAR_BASE_URL []
          [("guild_id", VInt (GuildMember._guild_id m));
           ("user_id", VInt (GuildMember.id m));
           ("avatar_hash", GuildMember.avatar_hash m);
           ("format", VStr DISCORD_ANIMATED_IMAGE_FORMAT)] in
      Ok (Some url))
  /\ (truthy (GuildMember.avatar_hash m) = true ->
      has_prefix (GuildMember.avatar_hash m) "a_" = false ->
      GuildMember.icon_url m =
      let? url :=
        format DISCORD_GUILD_MEMBER_AVATAR_BASE_URL []
          [("guild_id", VInt (GuildMember._guild_id m));
           ("user_id", VInt (GuildMember.id m));
           ("avatar_hash", GuildMember.avatar_hash m);
           ("format", VStr DISCORD_IMAGE_FORMAT)] in
      Ok (Some url))
  /\ (truthy (GuildMember.avatar_hash m) = false ->
      GuildMember.icon_url m = Ok None).
Proof.
  unfold User.avatar_url, User.default_avatar_url, GuildMember.icon_url.
  rewrite User_is_avatar_animated_spec, GuildMember_is_avatar_animated_spec.
  cbn [res_bind]. repeat split.
  - intros Ha. now rewrite (has_prefix_truthy _ _ _ Ha), Ha.
  - intros -> ->. reflexivity.
  - intros ->. reflexivity.
  - intros Ha. now rewrite (has_prefix_truthy _ _ _ Ha), Ha.
  - intros -> ->. reflexivity.
  - intros ->. reflexivity.
Qed.

(** C10.  When the payload has no key "avatar", the avatar hash of the
    constructed [User] is the payload's discriminator, so that for a truthy
    (non-empty) discriminator [avatar_url] is the hash-based URL formatted
    with the discriminator, not the default avatar URL. *)
Theorem absent_avatar_is_discriminator (d : list (string * value)) (u : User.t) :
  assoc "avatar" d = None ->
  User.__init__ (VDict d) = Ok u ->
  assoc "discriminator" d = Some (User.avatar_hash u)
  /\ User.avatar_hash u = User.discriminator u
  /\ (truthy (User.discriminator u) = true ->
      User.avatar_url u =
      format DISCORD_USER_AVATAR_BASE_URL []
        [("user_id", VInt (User.id u));
         ("avatar_hash", User.discriminator u);
         ("format",
          VStr (if has_prefix (User.discriminator u) "a_"
                then DISCORD_ANIMATED_IMAGE_FORMAT else DISCORD_IMAGE_FORMAT))]).
Proof.
  intros Havatar Hinit. rewrite User_init_dict, Havatar in Hinit.
  destruct (assoc "id" d) as [id_raw|]; [|discriminate].
  destruct (int id_raw) as [id|]; [|discriminate].
  destruct (assoc "username" d) as [username|]; [|discriminate].
  destruct (assoc "discriminator" d) as [disc|]; [|discriminate].
  injection Hinit as <-. cbn [User.avatar_hash User.discriminator User.id default].
  repeat split.
  intros Htruthy. unfold User.avatar_url.
  rewrite User_is_avatar_animated_spec.
  cbn [User.avatar_hash User.id default res_bind]. now rewrite Htruthy.
Qed.

End Avatars.

Section AvatarExamples.
Existing Instance Sample.builtins.
Existing Instance Sample.configs.

Example animated_user_avatar :
  User.avatar_url (Sample.user_of
    (VDict [("id", VStr "123"); ("username", VStr "alice");
            ("discriminator", VStr "0"); ("avatar", VStr "a_1f2e")]))
  = Ok "https://cdn.discordapp.com/avatars/123/a_1f2e.gif".
Proof. reflexivity. Qed.

Example default_user_avatar :
  User.avatar_url (Sample.user_of
    (VDict [("id", VStr "80351110224678912"); ("username", VStr "alice");
            ("discriminator", VStr "0"); ("avatar", VNone)]))
  = Ok "https://cdn.discordapp.com/embed/avatars/5.png".
Proof. reflexivity. Qed.

Lemma avatar_url_selection_witness :
  User.avatar_url (Sample.user_of
    (VDict [("id", VStr "123"); ("username", VStr "alice");
            ("discriminator", VStr "0"); ("avatar", VStr "a_1f2e")]))
  = Ok "https://cdn.discordapp.com/avatars/123/a_1f2e.gif"
  /\ GuildMember.icon_url (Sample.member_of (Sample.member_payload VNone) 7)
     = Ok None
  /\ GuildMember.icon_url (Sample.member_of (Sample.member_payload (VStr "9c0d")) 7)
     = Ok (Some "https://cdn.discordapp.com/guilds/7/users/123/avatars/9c0d.png").
Proof.
  split; [|split].
  - destruct (avatar_url_selection
                (Sample.user_of
                   (VDict [("id", VStr "123"); ("username", VStr "alice");
                           ("discriminator", VStr "0"); ("avatar", VStr "a_1f2e")]))
                (Sample.member_of (Sample.member_payload VNone) 7))
      as (Hanimated & _).
    rewrite (Hanimated eq_refl). reflexivity.
  - destruct (avatar_url_selection (Sample.user_of Sample.alice)
                (Sample.member_of (Sample.member_payload VNone) 7))
      as (_ & _ & _ & _ & _ & Hnone).
    exact (Hnone eq_refl).
  - destruct (avatar_url_selection (Sample.user_of Sample.alice)
                (Sample.member_of (Sample.member_payload (VStr "9c0d")) 7))
      as (_ & _ & _ & _ & Hstatic & _).
    rewrite (Hstatic eq_refl eq_refl). reflexivity.
Defined.

Lemma absent_avatar_is_discriminator_witness :
  exists u, User.__init__ Sample.alice_legacy = Ok u
    /\ User.avatar_hash u = VStr "4242"
    /\ User.avatar_url u = Ok "https://cdn.discordapp.com/avatars/123/4242.png".
Proof.
  exists (Sample.user_of Sample.alice_legacy). split; [reflexivity|].
  destruct (absent_avatar_is_discriminator
              [("id", VStr "123"); ("username", VStr "alice");
               ("discriminator", VStr "4242")]
              (Sample.user_of Sample.alice_legacy) eq_refl eq_refl)
    as (_ & Hhash & Hurl).
  split; [exact Hhash | rewrite (Hurl eq_refl); reflexivity].
Defined.

End AvatarExamples.

(* ===================================================================== *)
(** ** Requests and the guild-member cache                                 *)
(* ===================================================================== *)

Section Requests.
Import Http.
Context `{Client}.

Lemma with_guild_members_id u : User.with_guild_members u (User._guild_members u) = u.
Proof. now destruct u. Qed.

Lemma with_guild_members_twice u a b :
  User.with_guild_members (User.with_guild_members u a) b
  = User.with_guild_members u b.
Proof. reflexivity. Qed.

(** A constructed member carries the guild ID it was constructed with. *)
Lemma GuildMember_init_guild_id payload g m :
  GuildMember.__init__ payload g = Ok m -> GuildMember.guild_id m = g.
Proof.
  destruct payload; try discriminate.
  rewrite GuildMember_init_dict.
  destruct (get _ "id" VNone) as [id_raw|]; [|discriminate].
  destruct (int id_raw); [|discriminate].
  now intros [= <-].
Qed.

(** One fetch of a guild member: exactly one request is logged, whatever
    the outcome; guild ID 0 reaches [GuildMember(payload)], which lacks an
    argument. *)
Lemma GuildMember_fetch_run {O} (g : Z) (w : World O) :
  GuildMember.fetch_from_api g w =
  (match respond (calls w) (GuildMember.fetch_call g) with
   | Raise e => Raise e
   | Ok payload =>
       if (g =? 0)%Z then Raise TypeError
       else match GuildMember.__init__ payload g with
            | Ok m => Ok (Base.One m)
            | Raise e => Raise e
            end
   end,
   {| self := self w; calls := calls w ++ [GuildMember.fetch_call g] |}).
Proof.
  unfold GuildMember.fetch_from_api, Base.fetch_from_api, bind, _request, send,
    GuildMember.fetch_call.
  cbn [Base.BOT Base.ROUTE Base.MANY Base.new GuildMember.cls].
  destruct (respond _ _) as [payload|e]; [|reflexivity].
  destruct (g =? 0)%Z; cbn; [reflexivity|].
  unfold lift. now destruct (GuildMember.__init__ payload g).
Qed.

(** Fetching a member and storing it through the setter, followed by any
    continuation [k]. *)
Lemma fetch_then_store {B} (g : Z) (k : Base.fetched GuildMember.t -> M User.t B)
    (w : World User.t) :
  bind (GuildMember.fetch_from_api g)
       (fun member => bind (User.set_guild_members member) (fun _ => k member)) w =
  let log := calls w ++ [GuildMember.fetch_call g] in
  match respond (calls w) (GuildMember.fetch_call g) with
  | Raise e => (Raise e, {| self := self w; calls := log |})
  | Ok payload =>
      if (g =? 0)%Z then (Raise TypeError, {| self := self w; calls := log |})
      else match GuildMember.__init__ payload g with
           | Raise e => (Raise e, {| self := self w; calls := log |})
           | Ok m =>
               k (Base.One m)
                 {| self := User.with_guild_members (self w)
                              (<[g := m]> (User._guild_members (self w)));
                    calls := log |}
           end
  end.
Proof.
  unfold bind at 1. rewrite GuildMember_fetch_run. cbn zeta.
  destruct (respond _ _) as [payload|e]; [|reflexivity].
  destruct (g =? 0)%Z; [reflexivity|].
  destruct (GuildMember.__init__ payload g) as [m|e] eqn:Hm; [|reflexivity].
  apply GuildMember_init_guild_id in Hm.
  unfold bind, User.set_guild_members, get_self, set_self. cbn. now rewrite Hm.
Qed.

(** C5.  When the authorization-token mapping of the session has no key
    "access_token", [add_to_guild] raises [Unauthorized] and the request
    log is untouched: nothing was sent.  When the key is present, exactly
    one request is logged, the bot-authorized PUT carrying the token, the
    response is returned, and a falsy response such as an empty body is
    returned as an empty dict. *)
Theorem add_to_guild_token_checked_first (u : User.t) (guild_id : Z)
    (log : list Call) (token : list (string * value)) :
  get_authorization_token = Ok (VDict token) ->
  let w := {| self := u; calls := log |} in
  (assoc "access_token" token = None ->
     User.add_to_guild guild_id w = (Raise Unauthorized, w))
  /\ (forall access_token,
        assoc "access_token" token = Some access_token ->
        let put := User.add_to_guild_call guild_id u access_token in
        User.add_to_guild guild_id w =
        (match respond log put with
         | Ok body => Ok (if truthy body then body else VDict [])
         | Raise e => Raise e
         end,
         {| self := u; calls := log ++ [put] |})).
Proof.
  intros Htoken w. unfold User.add_to_guild. rewrite Htoken.
  cbn [res_bind getitem]. split.
  - intros ->. reflexivity.
  - intros access_token ->. cbn [res_bind].
    unfold bind, get_self, _bot_request, send, ret, User.add_to_guild_call, py_or.
    cbn. now destruct (respond _ _).
Qed.

(** C9.  [fetch_guild_member(guild_id)] with a guild ID other than 0, when
    the remote API answers with a payload from which a member can be
    constructed, returns that member and stores it under [guild_id].
    Whenever it returns, the member is stored under [guild_id], every
    other entry of the mapping is as before, and so are the user's other
    fields; when it raises, the user is untouched. *)
Theorem fetch_guild_member_frame (u : User.t) (guild_id : Z) (log : list Call) :
  let w := {| self := u; calls := log |} in
  (forall payload member,
     guild_id <> 0%Z ->
     respond log (GuildMember.fetch_call guild_id) = Ok payload ->
     GuildMember.__init__ payload guild_id = Ok member ->
     User.fetch_guild_member guild_id w =
     (Ok (Base.One member),
      {| self := User.with_guild_members u
                   (<[guild_id := member]> (User.guild_members u));
         calls := log ++ [GuildMember.fetch_call guild_id] |}))
  /\ (forall r w',
        User.fetch_guild_member guild_id w = (r, w') ->
        calls w' = log ++ [GuildMember.fetch_call guild_id]
        /\ match r with
           | Ok (Base.One member) =>
               guild_id <> 0%Z
               /\ GuildMember.guild_id member = guild_id
               /\ User.guild_members (self w') !! guild_id = Some member
               /\ (forall other, other <> guild_id ->
                     User.guild_members (self w') !! other
                     = User.guild_members u !! other)
               /\ self w' = User.with_guild_members u (User.guild_members (self w'))
               /\ User.id (self w') = User.id u
               /\ User.username (self w') = User.username u
               /\ User._guilds (self w') = User._guilds u
               /\ User.connections (self w') = User.connections u
           | Ok (Base.Many _) => False
           | Raise _ => self w' = u
           end).
Proof.
  intros w. unfold User.fetch_guild_member. split.
  - intros payload member Hg Hresp Hinit.
    rewrite fetch_then_store. cbn zeta. subst w. cbn [self calls].
    rewrite Hresp, Hinit. apply Z.eqb_neq in Hg. now rewrite Hg.
  - intros r w'. rewrite fetch_then_store. cbn zeta. subst w. cbn [self calls].
    destruct (respond _ _) as [payload|e]; [|now intros [= <- <-]].
    destruct (guild_id =? 0)%Z eqn:Hg; [now intros [= <- <-]|].
    destruct (GuildMember.__init__ payload guild_id) as [member|e] eqn:Hinit;
      [|now intros [= <- <-]].
    unfold ret. intros [= <- <-]. cbn [self calls]. split; [reflexivity|].
    apply Z.eqb_neq in Hg. unfold User.guild_members.
    cbn [User.with_guild_members User._guild_members User.id User.username
         User._guilds User.connections].
    repeat split; try assumption.
    + eapply GuildMember_init_guild_id; eassumption.
    + apply lookup_insert_eq.
    + intros other Hother. now apply lookup_insert_ne.
Qed.

(** The loop of [fetch_guild_members], when it runs to its end: one
    request per guild, in order; every guild visited has an entry that
    belongs to it; entries of other guilds and the other fields stay. *)
Lemma fetch_each_ok (todo : list Guild.t) :
  forall w w',
    User.fetch_each todo w = (Ok tt, w') ->
    calls w' = calls w ++ map (fun g => GuildMember.fetch_call (Guild.id g)) todo
    /\ self w' = User.with_guild_members (self w) (User._guild_members (self w'))
    /\ (forall g, g ∈ todo ->
          exists m, User._guild_members (self w') !! Guild.id g = Some m
                    /\ GuildMember.guild_id m = Guild.id g)
    /\ (forall k, k ∉ map Guild.id todo ->
          User._guild_members (self w') !! k = User._guild_members (self w) !! k).
Proof.
  induction todo as [|guild todo IH]; intros w w'.
  - cbn. unfold ret. intros [= <-]. rewrite app_nil_r, with_guild_members_id.
    repeat split. intros g Hg. inversion Hg.
  - cbn [User.fetch_each]. rewrite fetch_then_store. cbn zeta.
    destruct (respond _ _) as [payload|e]; [|discriminate].
    destruct (Guild.id guild =? 0)%Z; [discriminate|].
    destruct (GuildMember.__init__ payload (Guild.id guild)) as [m|e] eqn:Hinit;
      [|discriminate].
    intros Hrest. apply IH in Hrest as (Hcalls & Hself & Hin & Hout).
    cbn [self calls] in *. rewrite with_guild_members_twice in Hself.
    cbn [User.with_guild_members User._guild_members] in Hout.
    split; [|split; [|split]].
    + rewrite Hcalls, <- app_assoc. reflexivity.
    + exact Hself.
    + intros g Hg. destruct (decide (Guild.id g ∈ map Guild.id todo)) as [Hlater|Hlater].
      * apply list_elem_of_fmap in Hlater as (g' & Heq & Hg').
        rewrite Heq. destruct (Hin g' Hg') as (m' & Hm' & Hid'). eauto.
      * apply elem_of_cons in Hg as [->|Hg].
        -- exists m. rewrite (Hout _ Hlater), lookup_insert_eq.
           split; [reflexivity|]. eapply GuildMember_init_guild_id; eassumption.
        -- destruct Hlater. apply list_elem_of_fmap. eauto.
    + intros k Hk. cbn [map] in Hk. apply not_elem_of_cons in Hk as [Hne Hk].
      rewrite (Hout _ Hk). now apply lookup_insert_ne.
Qed.

(** The loop runs to its end when no guild has ID 0 and the remote API
    answers every member request with a payload a member can be
    constructed from. *)
Lemma fetch_each_succeeds (todo : list Guild.t) :
  (forall g log, g ∈ todo ->
     Guild.id g <> 0%Z
     /\ exists payload m,
          respond log (GuildMember.fetch_call (Guild.id g)) = Ok payload
          /\ GuildMember.__init__ payload (Guild.id g) = Ok m) ->
  forall w, exists w', User.fetch_each todo w = (Ok tt, w').
Proof.
  induction todo as [|guild todo IH]; intros Hgood w.
  - eexists. reflexivity.
  - cbn [User.fetch_each]. rewrite fetch_then_store. cbn zeta.
    destruct (Hgood guild (calls w)) as (Hne & payload & m & -> & ->);
      [apply elem_of_cons; now left|].
    apply Z.eqb_neq in Hne. rewrite Hne.
    apply IH. intros g log Hg. apply Hgood, elem_of_cons. now right.
Qed.

(** What the loop stores, when it runs to its end, are the members it
    fetched: the mapping is the old one with the member constructed from
    each response stored under its guild ID, in the order of the guilds. *)
Lemma fetch_each_fetched (todo : list Guild.t) :
  forall w w',
    User.fetch_each todo w = (Ok tt, w') ->
    exists fetched,
      fetched_in_turn (calls w) todo fetched
      /\ User._guild_members (self w')
         = store_all (User._guild_members (self w)) fetched.
Proof.
  induction todo as [|guild todo IH]; intros w w'.
  - cbn. unfold ret. intros [= <-]. now exists [].
  - cbn [User.fetch_each]. rewrite fetch_then_store. cbn zeta.
    destruct (respond _ _) as [payload|e] eqn:Hresp; [|discriminate].
    destruct (Guild.id guild =? 0)%Z; [discriminate|].
    destruct (GuildMember.__init__ payload (Guild.id guild)) as [m|e] eqn:Hinit;
      [|discriminate].
    intros Hrest. apply IH in Hrest as (fetched & Hturn & Hstored).
    cbn [self calls User.with_guild_members User._guild_members] in *.
    exists (m :: fetched). split.
    + cbn. split; [now exists payload | exact Hturn].
    + rewrite Hstored. unfold store_all. cbn [foldl].
      now rewrite (GuildMember_init_guild_id _ _ _ Hinit).
Qed.

Lemma fetched_in_turn_ids (todo : list Guild.t) :
  forall log fetched,
    fetched_in_turn log todo fetched ->
    map GuildMember.guild_id fetched = map Guild.id todo.
Proof.
  induction todo as [|guild todo IH]; intros log [|m fetched]; cbn;
    try easy.
  intros [(payload & _ & Hinit) Hturn].
  rewrite (GuildMember_init_guild_id _ _ _ Hinit). f_equal. eapply IH, Hturn.
Qed.

Lemma store_all_notin (fetched : list GuildMember.t) :
  forall mapping k,
    k ∉ map GuildMember.guild_id fetched ->
    store_all mapping fetched !! k = mapping !! k.
Proof.
  unfold store_all.
  induction fetched as [|m fetched IH]; intros mapping k Hk; [reflexivity|].
  cbn [foldl]. cbn [map] in Hk. apply not_elem_of_cons in Hk as [Hne Hk].
  rewrite (IH _ _ Hk). now apply lookup_insert_ne.
Qed.

(** With no guild ID twice, the member found under a guild's ID is the
    one fetched for that guild. *)
Lemma store_all_lookup (fetched : list GuildMember.t) :
  forall mapping i m,
    NoDup (map GuildMember.guild_id fetched) ->
    fetched !! i = Some m ->
    store_all mapping fetched !! GuildMember.guild_id m = Some m.
Proof.
  induction fetched as [|m0 fetched IH]; intros mapping i m Hnodup Hi;
    [discriminate|].
  cbn [map] in Hnodup. apply NoDup_cons in Hnodup as [Hfresh Hnodup].
  destruct i as [|i]; cbn in Hi.
  - injection Hi as ->. unfold store_all. cbn [foldl].
    fold (store_all (<[GuildMember.guild_id m := m]> mapping) fetched).
    rewrite (store_all_notin _ _ _ Hfresh). apply lookup_insert_eq.
  - unfold store_all. cbn [foldl].
    fold (store_all (<[GuildMember.guild_id m0 := m0]> mapping) fetched).
    now apply IH with i.
Qed.

(** [fetch_guild_members] is the loop over the cached guilds followed by
    a read of the mapping. *)
Lemma fetch_guild_members_run (w : World User.t) :
  User.fetch_guild_members w =
  match User._guilds (self w) with
  | None => (Raise TypeError, w)
  | Some cache =>
      match User.fetch_each (map snd cache) w with
      | (Ok _, w1) => (Ok (User.guild_members (self w1)), w1)
      | (Raise e, w1) => (Raise e, w1)
      end
  end.
Proof.
  unfold User.fetch_guild_members, User.guilds, bind, get_self, ret, raise.
  destruct (User._guilds (self w)) as [cache|]; [|reflexivity].
  now destruct (User.fetch_each (map snd cache) w) as [[[]|e] w1].
Qed.

(** C3, as the code has it.  Without a guild cache the call raises
    [TypeError] before any request.  With an empty guild cache it issues no
    request, changes nothing and returns the guild-members mapping as it
    stands.  Otherwise it walks the cached guilds only: when it returns,
    one request per cached guild has been issued, in order, the returned
    mapping is the user's, and it is the old mapping with the member
    constructed from each response stored under its guild's ID, so that
    under every cached guild's ID it has a member of that guild (the very
    member fetched for it when no ID is cached twice), while entries of
    other guilds and the user's other fields are as before; it does return
    when no cached guild has ID 0 and every request is answered with a
    payload a member can be constructed from. *)
Theorem fetch_guild_members_walks_cache (u : User.t) (log : list Call) :
  let w := {| self := u; calls := log |} in
  (User._guilds u = None ->
     User.fetch_guild_members w = (Raise TypeError, w))
  /\ (User._guilds u = Some [] ->
      User.fetch_guild_members w = (Ok (User.guild_members u), w))
  /\ (forall cache members w',
        User._guilds u = Some cache ->
        User.fetch_guild_members w = (Ok members, w') ->
        members = User.guild_members (self w')
        /\ calls w' = log ++ map (fun kv => GuildMember.fetch_call (Guild.id kv.2)) cache
        /\ self w' = User.with_guild_members u members
        /\ (forall kv, kv ∈ cache ->
              exists m, members !! Guild.id kv.2 = Some m
                        /\ GuildMember.guild_id m = Guild.id kv.2)
        /\ (forall k, k ∉ map (fun kv => Guild.id kv.2) cache ->
              members !! k = User.guild_members u !! k)
        /\ exists fetched,
             fetched_in_turn log (map snd cache) fetched
             /\ members = store_all (User.guild_members u) fetched
             /\ (NoDup (map (fun kv => Guild.id kv.2) cache) ->
                 forall i kv m,
                   cache !! i = Some kv -> fetched !! i = Some m ->
                   members !! Guild.id kv.2 = Some m))
  /\ (forall cache,
        User._guilds u = Some cache ->
        (forall kv log', kv ∈ cache ->
           Guild.id kv.2 <> 0%Z
           /\ exists payload m,
                respond log' (GuildMember.fetch_call (Guild.id kv.2)) = Ok payload
                /\ GuildMember.__init__ payload (Guild.id kv.2) = Ok m) ->
        exists members w', User.fetch_guild_members w = (Ok members, w')).
Proof.
  intros w. subst w. rewrite !fetch_guild_members_run. cbn [self calls].
  split; [|split; [|split]].
  - intros ->. reflexivity.
  - intros ->. reflexivity.
  - intros cache members w' ->.
    destruct (User.fetch_each _ _) as [[[]|e] w1] eqn:Hloop; [|discriminate].
    intros [= <- <-].
    destruct (fetch_each_fetched _ _ _ Hloop) as (fetched & Hturn & Hstored).
    apply fetch_each_ok in Hloop as (Hcalls & Hself & Hin & Hout).
    cbn [self calls] in *. unfold User.guild_members.
    rewrite map_map in Hcalls. split; [reflexivity|]. split; [exact Hcalls|].
    split; [exact Hself|]. split; [|split].
    + intros kv Hkv. apply Hin, list_elem_of_fmap. eauto.
    + intros k Hk. apply Hout. now rewrite map_map.
    + exists fetched. split; [exact Hturn|]. split; [exact Hstored|].
      intros Hnodup i kv m Hkv Hm.
      pose proof (fetched_in_turn_ids _ _ _ Hturn) as Hids.
      rewrite map_map in Hids.
      assert (Hguild : GuildMember.guild_id m = Guild.id kv.2).
      { assert (Hi : map GuildMember.guild_id fetched !! i
                     = Some (GuildMember.guild_id m))
          by (rewrite list_lookup_fmap, Hm; reflexivity).
        rewrite Hids, list_lookup_fmap, Hkv in Hi. now injection Hi. }
      rewrite Hstored, <- Hguild. apply store_all_lookup with i; [|exact Hm].
      now rewrite Hids.
  - intros cache -> Hgood.
    destruct (fetch_each_succeeds (map snd cache)) with (w := {| self := u; calls := log |})
      as [w1 ->].
    + intros g log' Hg. apply list_elem_of_fmap in Hg as (kv & -> & Hkv).
      now apply Hgood.
    + eauto.
Qed.

End Requests.

Section RequestExamples.
Import Http.

Lemma add_to_guild_token_checked_first_witness :
  let w := {| self := Sample.user_of Sample.alice; calls := [] |} in
  @User.add_to_guild Sample.client_logged_out 42 w = (Raise Unauthorized, w)
  /\ @User.add_to_guild Sample.client_empty_body 42 w =
     (Ok (VDict []),
      {| self := Sample.user_of Sample.alice;
         calls := [{| bot := true; method := "PUT";
                      route := "/guilds/42/members/123";
                      json := Some (VDict [("access_token", VStr "token")]) |}] |}).
Proof.
  split.
  - exact (proj1 (@add_to_guild_token_checked_first Sample.client_logged_out
                    (Sample.user_of Sample.alice) 42 []
                    [("token_type", VStr "Bearer")] eq_refl) eq_refl).
  - exact (proj2 (@add_to_guild_token_checked_first Sample.client_empty_body
                    (Sample.user_of Sample.alice) 42 []
                    [("access_token", VStr "token")] eq_refl)
             (VStr "token") eq_refl).
Defined.

(** A session whose token accessor yields no mapping at all is not the
    [Unauthorized] case: subscripting [None] is a [TypeError]. *)
Example add_to_guild_without_mapping :
  let w := {| self := Sample.user_of Sample.alice; calls := [] |} in
  @User.add_to_guild
    {| respond := fun _ _ => Ok (VStr EmptyString); get_authorization_token := Ok VNone |}
    42 w
  = (Raise TypeError, w).
Proof. reflexivity. Qed.

Lemma fetch_guild_member_frame_witness :
  let member := Sample.member_of (Sample.member_payload VNone) 7 in
  let w := {| self := Sample.alice_in_guild_5; calls := [] |} in
  exists w',
    @User.fetch_guild_member Sample.client 7 w = (Ok (Base.One member), w')
    /\ calls w' = [{| bot := false; method := "GET";
                      route := "/users/@me/guilds/7/member"; json := None |}]
    /\ User.guild_members (self w') !! 7%Z = Some member
    /\ User.guild_members (self w') !! 5%Z
       = User.guild_members Sample.alice_in_guild_5 !! 5%Z.
Proof.
  intros member w.
  destruct (@fetch_guild_member_frame Sample.client Sample.alice_in_guild_5 7 [])
    as [Hok Hframe].
  specialize (Hok (Sample.member_payload VNone) member ltac:(discriminate)
                eq_refl eq_refl).
  eexists. split; [exact Hok|].
  destruct (Hframe _ _ Hok) as (Hcalls & _ & _ & Hstored & Hothers & _).
  split; [exact Hcalls|]. split; [exact Hstored|].
  apply Hothers. discriminate.
Defined.

(** Guild ID 0 is the "no guild" sentinel of [fetch_from_api]: the request
    goes out with the placeholder in place and the construction fails. *)
Example fetch_guild_member_zero :
  let w := {| self := Sample.user_of Sample.alice; calls := [] |} in
  @User.fetch_guild_member Sample.client 0 w
  = (Raise TypeError,
     {| self := Sample.user_of Sample.alice;
        calls := [{| bot := false; method := "GET";
                     route := "/users/@me/guilds/{guild_id}/member";
                     json := None |}] |}).
Proof. reflexivity. Qed.

(** C3 as worded fails: with an empty guild cache the call returns the
    mapping as it stands, which is not empty when a member was stored
    before. *)
Lemma empty_guild_cache_returns_stored_members :
  let u := User.with_guilds Sample.alice_in_guild_5 (Some []) in
  let w := {| self := u; calls := [] |} in
  exists members,
    User.guilds u = Some []
    /\ @User.fetch_guild_members Sample.client w = (Ok members, w)
    /\ members !! 5%Z = Some (Sample.member_of (Sample.member_payload (VStr "9c0d")) 5)
    /\ members <> ∅.
Proof.
  intros u w. exists (User.guild_members u).
  split; [reflexivity|]. split; [reflexivity|].
  assert (Hstored : User.guild_members u !! 5%Z
                    = Some (Sample.member_of (Sample.member_payload (VStr "9c0d")) 5))
    by apply lookup_singleton_eq.
  split; [exact Hstored|].
  intros Hempty. rewrite Hempty, lookup_empty in Hstored. discriminate.
Qed.

Lemma fetch_guild_members_walks_cache_witness :
  (let u := User.with_guilds Sample.alice_in_guild_5 (Some []) in
   let w := {| self := u; calls := [] |} in
   @User.fetch_guild_members Sample.client w = (Ok (User.guild_members u), w))
  /\ (let u := User.with_guilds Sample.alice_in_guild_5
                 (Some [(1%Z, Sample.guild 1); (2%Z, Sample.guild 2)]) in
      let w := {| self := u; calls := [] |} in
      exists members w',
        @User.fetch_guild_members Sample.client w = (Ok members, w')
        /\ length (calls w') = 2
        /\ (exists m, members !! 2%Z = Some m /\ GuildMember.guild_id m = 2%Z)
        /\ members !! 5%Z = User.guild_members u !! 5%Z
        /\ members !! 2%Z
           = Some (Sample.member_of (Sample.member_payload VNone) 2))
  /\ (let w := {| self := Sample.user_of Sample.alice; calls := [] |} in
      @User.fetch_guild_members Sample.client w = (Raise TypeError, w)).
Proof.
  split; [|split].
  - exact (proj1 (proj2 (@fetch_guild_members_walks_cache Sample.client
                           (User.with_guilds Sample.alice_in_guild_5 (Some []))
                           [])) eq_refl).
  - intros u w.
    destruct (@fetch_guild_members_walks_cache Sample.client u [])
      as (_ & _ & Hwalk & Hruns).
    destruct (Hruns [(1%Z, Sample.guild 1); (2%Z, Sample.guild 2)] eq_refl)
      as (members & w' & Hrun).
    { intros kv log' Hin.
      apply elem_of_cons in Hin as [->|Hin];
        [split; [discriminate | eexists _, _; split; reflexivity]|].
      apply elem_of_cons in Hin as [->|Hin];
        [split; [discriminate | eexists _, _; split; reflexivity]|].
      inversion Hin. }
    exists members, w'. split; [exact Hrun|].
    destruct (Hwalk _ _ _ eq_refl Hrun)
      as (_ & Hcalls & _ & Hin & Hout & fetched & Hturn & _ & Hfetched).
    split; [now rewrite Hcalls|]. split; [|split].
    + apply (Hin (2%Z, Sample.guild 2)). apply elem_of_cons. right.
      apply elem_of_cons. now left.
    + apply Hout. cbn. intros Hk.
      apply elem_of_cons in Hk as [Hk|Hk]; [discriminate|].
      apply elem_of_cons in Hk as [Hk|Hk]; [discriminate|]. inversion Hk.
    + cbn [map snd] in Hturn.
      destruct fetched as [|m1 fetched]; [destruct Hturn|].
      cbn [fetched_in_turn] in Hturn. destruct Hturn as [_ Hturn].
      destruct fetched as [|m2 fetched]; [destruct Hturn|].
      cbn [fetched_in_turn] in Hturn.
      destruct Hturn as [(payload & Hresp & Hm2) Hturn].
      destruct fetched as [|m3 fetched]; [|destruct Hturn].
      change (Ok (Sample.member_payload VNone) = Ok payload) in Hresp.
      injection Hresp as <-.
      change (Guild.id (Sample.guild 2)) with 2%Z in Hm2.
      assert (Hsame : Sample.member_of (Sample.member_payload VNone) 2 = m2)
        by (unfold Sample.member_of; now rewrite Hm2).
      rewrite Hsame.
      assert (Hnodup : NoDup [1%Z; 2%Z]).
      { apply NoDup_cons. split; [|apply NoDup_singleton].
        intros Hone%list_elem_of_singleton. discriminate Hone. }
      exact (Hfetched Hnodup 1%nat (2%Z, Sample.guild 2) m2 eq_refl eq_refl).
  - exact (proj1 (@fetch_guild_members_walks_cache Sample.client
                    (Sample.user_of Sample.alice) []) eq_refl).
Defined.

End RequestExamples.

(* ===================================================================== *)
(** ** Further properties: the metaclass and [fetch_from_api]              *)
(* ===================================================================== *)

Section RouteResolution.
Import Meta.

(** X1.  [cls.ROUTE] is decided by the first namespace of the resolution
    order that binds it: a subclass that does not bind [ROUTE] itself is
    defined whenever the route it inherits is truthy, under any name, and
    a subclass that binds a falsy [ROUTE] is rejected whatever it
    inherits. *)
Theorem route_first_binding_decides (parent : class) (child_name : string)
    (child_ns : list (string * value)) :
  let child := {| name := child_name; mro := child_ns :: mro parent |} in
  (assoc "ROUTE" child_ns = None ->
   truthy (ROUTE parent) = true ->
   class_statement child = Ok child)
  /\ (forall route,
        assoc "ROUTE" child_ns = Some route ->
        truthy route = false ->
        child_name <> "DiscordModelsBase" ->
        class_statement child
        = Raise (NotImplementedError (message child_name))).
Proof.
  intros child. unfold class_statement, __init__, ROUTE. subst child.
  cbn [mro name lookup_mro]. split.
  - intros -> Htruthy. unfold ROUTE in Htruthy. now rewrite Htruthy.
  - intros route -> Hfalsy Hname. cbn [default from_option Datatypes.id].
    apply String.eqb_neq in Hname. now rewrite Hfalsy, Hname.
Qed.

Lemma route_first_binding_decides_witness :
  class_statement Bot = Ok Bot
  /\ class_statement
       {| name := "Webhook"; mro := [("ROUTE", VNone)] :: mro User |}
     = Raise (NotImplementedError
                "ROUTE must be specified in a Discord model: Webhook.").
Proof.
  split.
  - apply (proj1 (route_first_binding_decides User "Bot" []));
      reflexivity.
  - apply (proj2 (route_first_binding_decides User "Webhook" [("ROUTE", VNone)])
             VNone); [reflexivity | reflexivity | discriminate].
Defined.

End RouteResolution.

Section BaseFetch.
Import Http.
Context `{Client}.

(** What [new_each] returns is the list of the instances constructed from
    the items, one for one and in order. *)
Lemma new_each_spec {T} (cls : Base.Class T) (items : list value) (xs : list T) :
  Base.new_each cls items = Ok xs
  <-> Forall2 (fun item x => Base.new cls item None = Ok x) items xs.
Proof.
  revert xs. induction items as [|item items IH]; intros xs; cbn.
  - split.
    + intros [= <-]. constructor.
    + intros Hall. inversion Hall. reflexivity.
  - destruct (Base.new cls item None) as [x|e] eqn:Hx; cbn.
    + destruct (Base.new_each cls items) as [xs'|e] eqn:Hxs; cbn.
      * split.
        -- intros [= <-]. constructor; [exact Hx | now apply IH].
        -- intros Hall. inversion Hall as [|? x0 ? xs0 Hx0 Hxs0]; subst.
           rewrite Hx in Hx0. injection Hx0 as <-.
           apply IH in Hxs0. now injection Hxs0 as <-.
      * split; [discriminate|].
        intros Hall. inversion Hall as [|? x0 ? xs0 Hx0 Hxs0]; subst.
        apply IH in Hxs0. discriminate.
    + split; [discriminate|].
      intros Hall. inversion Hall as [|? x0 ? xs0 Hx0 Hxs0]; subst.
      rewrite Hx in Hx0. discriminate.
Qed.

(** X2.  Every call of [fetch_from_api] sends exactly one request, whatever
    comes of it: a GET without a body, signed with the bot's credentials
    exactly when the class sets [BOT], to the class's route, with the
    placeholder filled in unless the guild ID is 0.  The object it runs on
    is not touched, and a failure of the remote API is raised as it is. *)
Theorem fetch_from_api_one_request {O T} (cls : Base.Class T) (guild_id : Z)
    (w : World O) :
  let request :=
    {| bot := Base.BOT cls; method := "GET";
       route := if (guild_id =? 0)%Z then Base.ROUTE cls
                else replace (Base.ROUTE cls) "{guild_id}" (str_of_Z guild_id);
       json := None |} in
  snd (Base.fetch_from_api cls guild_id w)
  = {| self := self w; calls := calls w ++ [request] |}
  /\ (forall e, respond (calls w) request = Raise e ->
        fst (Base.fetch_from_api cls guild_id w) = Raise e).
Proof.
  unfold Base.fetch_from_api, bind, _request, _bot_request, send, lift.
  destruct (guild_id =? 0)%Z; cbn [negb];
    destruct (Base.BOT cls); cbn [self calls];
    destruct (respond _ _) as [payload|e0]; cbn [self calls];
    (split; [|intros e; try discriminate; now intros [= <-]]);
    repeat match goal with |- context [if ?b then _ else _] => destruct b end;
    reflexivity.
Qed.

(** X3.  A list-valued class ([MANY]) fetched without a guild turns a
    JSON array into the list of the instances of its items, one for one
    and in order; the fetch returns exactly when every item can be
    constructed. *)
Theorem fetch_many_elementwise {O T} (cls : Base.Class T) (w : World O)
    (items : list value) :
  Base.MANY cls = true ->
  respond (calls w)
    {| bot := Base.BOT cls; method := "GET"; route := Base.ROUTE cls;
       json := None |} = Ok (VList items) ->
  forall xs,
    fst (Base.fetch_from_api cls 0 w) = Ok (Base.Many xs)
    <-> Forall2 (fun item x => Base.new cls item None = Ok x) items xs.
Proof.
  intros Hmany Hresp xs. rewrite <- new_each_spec.
  unfold Base.fetch_from_api, bind, _request, _bot_request, send, lift.
  cbn [Z.eqb negb]. rewrite Hmany.
  destruct (Base.BOT cls); cbn [self calls]; rewrite Hresp; cbn [fst Base.iter res_bind];
    (destruct (Base.new_each cls items) as [xs'|e]; cbn [res_bind];
     [split; [now intros [= <-] | now intros [= <-]] | split; discriminate]).
Qed.

(** X4.  For every guild ID other than 0 the member request goes to
    /users/@me/guilds/<guild_id>/member: the placeholder, and nothing
    else, is replaced by the decimal ID. *)
Theorem member_route_filled (guild_id : Z) :
  guild_id <> 0%Z ->
  route (GuildMember.fetch_call guild_id)
  = "/users/@me/guilds/" +:+ str_of_Z guild_id +:+ "/member".
Proof.
  intros Hg. apply Z.eqb_neq in Hg. unfold GuildMember.fetch_call.
  cbn [route]. rewrite Hg. reflexivity.
Qed.

Lemma member_route_filled_witness :
  route (GuildMember.fetch_call 81384788765712384)
  = "/users/@me/guilds/81384788765712384/member".
Proof. rewrite member_route_filled; [reflexivity | discriminate]. Defined.

End BaseFetch.

Lemma fetch_many_elementwise_witness :
  fst (@Base.fetch_from_api unit _ Fixtures.client_two_users Fixtures.many_users 0
         {| Http.self := tt; Http.calls := [] |})
  = Ok (Base.Many [Sample.user_of Sample.alice; Sample.user_of Fixtures.bob]).
Proof.
  apply (@fetch_many_elementwise Fixtures.client_two_users unit _
           Fixtures.many_users {| Http.self := tt; Http.calls := [] |}
           [Sample.alice; Fixtures.bob] eq_refl eq_refl).
  repeat constructor.
Defined.

(* ===================================================================== *)
(** ** Further properties: payloads, string forms, equality                *)
(* ===================================================================== *)

Section Payloads.
Import Http Display.
Context `{Builtins} `{Client}.

(** X5.  [to_json] gives back the payload an instance was constructed
    from, and for a fetched member that payload is the response of the
    remote API to the member request. *)
Theorem to_json_round_trip :
  (forall payload u, User.__init__ payload = Ok u -> User_to_json u = payload)
  /\ (forall payload guild_id m,
        GuildMember.__init__ payload guild_id = Ok m ->
        GuildMember_to_json m = payload)
  /\ (forall O guild_id (w w' : World O) m,
        GuildMember.fetch_from_api guild_id w = (Ok (Base.One m), w') ->
        respond (calls w) (GuildMember.fetch_call guild_id)
        = Ok (GuildMember_to_json m)).
Proof.
  assert (Hmember : forall payload guild_id m,
             GuildMember.__init__ payload guild_id = Ok m ->
             GuildMember_to_json m = payload).
  { intros payload guild_id m. destruct payload; try discriminate.
    rewrite GuildMember_init_dict.
    destruct (get _ "id" VNone) as [id_raw|]; [|discriminate].
    destruct (int id_raw); [|discriminate]. now intros [= <-]. }
  split; [|split; [exact Hmember|]].
  - intros payload u Hinit. destruct (User_init_is_dict _ _ Hinit) as [d ->].
    rewrite User_init_dict in Hinit.
    destruct (assoc "id" d) as [id_raw|]; [|discriminate].
    destruct (int id_raw); [|discriminate].
    destruct (assoc "username" d); [|discriminate].
    destruct (assoc "discriminator" d); [|discriminate].
    now injection Hinit as <-.
  - intros O guild_id w w' m. rewrite GuildMember_fetch_run.
    destruct (respond _ _) as [payload|]; [|discriminate].
    destruct (guild_id =? 0)%Z; [discriminate|].
    destruct (GuildMember.__init__ payload guild_id) as [m'|] eqn:Hinit;
      [|discriminate].
    intros [= <- _]. now rewrite (Hmember _ _ _ Hinit).
Qed.

(** X6.  The string form of a constructed user: name#discriminator when
    the discriminator is not "0"; for a migrated user with a non-empty
    username it is always "global name (@username)", the global name
    falling back to the username, so that the bare "@username" form is
    left to migrated users whose username is empty or null. *)
Theorem user_str_forms (payload : value) (u : User.t) :
  User.__init__ payload = Ok u ->
  (User.is_migrated u = false ->
     User__str__ u
     = str (User.username u) +:+ "#" +:+ str (User.discriminator u))
  /\ (User.is_migrated u = true -> truthy (User.username u) = true ->
      truthy (User.global_name u) = true
      /\ User__str__ u
         = str (User.global_name u) +:+ " (@" +:+ str (User.username u) +:+ ")")
  /\ (User.is_migrated u = true -> truthy (User.global_name u) = false ->
      truthy (User.username u) = false
      /\ User__str__ u = "@" +:+ str (User.username u)).
Proof.
  intros Hinit. destruct (User_init_is_dict _ _ Hinit) as [d ->].
  rewrite User_init_dict in Hinit.
  destruct (assoc "id" d) as [id_raw|]; [|discriminate].
  destruct (int id_raw); [|discriminate].
  destruct (assoc "username" d) as [username|]; [|discriminate].
  destruct (assoc "discriminator" d) as [disc|]; [|discriminate].
  injection Hinit as <-. unfold User__str__, User_name.
  cbn [User.is_migrated User.global_name User.username User.discriminator].
  destruct (eq_str disc "0"); cbn [andb].
  - split; [discriminate|]. unfold py_or.
    destruct (truthy (default VNone (assoc "global_name" d))) eqn:Hglobal; split.
    + intros _ _. now rewrite Hglobal.
    + intros _ Hfalse. rewrite Hglobal in Hfalse. discriminate.
    + intros _ Hname. now rewrite Hname.
    + intros _ Hname. now rewrite Hname.
  - split; [reflexivity|]. split; discriminate.
Qed.

(** X7.  The string form of a constructed member never raises
    [AttributeError]: it is the nickname when that is truthy, else the
    user's global name when truthy, else the user's username; when none of
    the three is there the method returns [None] and [str(member)] raises
    [TypeError]. *)
Theorem member_str_precedence (payload : value) (guild_id : Z)
    (m : GuildMember.t) :
  GuildMember.__init__ payload guild_id = Ok m ->
  exists user,
    GuildMember.user m = VDict user
    /\ GuildMember__str__ m
       = Ok (py_or (GuildMember.nick m)
               (py_or (default VNone (assoc "global_name" user))
                  (default VNone (assoc "username" user))))
    /\ (truthy (GuildMember.nick m) = false ->
        assoc "global_name" user = None ->
        assoc "username" user = None ->
        str_of_member m = Raise TypeError).
Proof.
  destruct payload as [| | | | | |d]; try discriminate.
  rewrite GuildMember_init_dict.
  destruct (default VNone (assoc "user" d)) as [| | | | | |user] eqn:Huser;
    try discriminate.
  rewrite get_dict. destruct (int _); [|discriminate].
  intros [= <-]. exists user.
  unfold str_of_member, GuildMember__str__, py_or.
  cbn [GuildMember.user GuildMember.nick]. rewrite !get_dict.
  cbn [res_bind]. split; [reflexivity|]. split.
  - destruct (truthy (default VNone (assoc "nick" d))); [reflexivity|].
    cbn [res_bind]. now destruct (truthy (default VNone (assoc "global_name" user))).
  - intros -> -> ->. reflexivity.
Qed.

(** X8.  A payload that is not a JSON object is rejected by every
    constructor: [User] raises [TypeError] (it subscripts the payload),
    [GuildMember] and [Integration] raise [AttributeError] (they call
    [get] on it). *)
Theorem non_object_payload_rejected (payload : value) :
  (forall d, payload <> VDict d) ->
  User.__init__ payload = Raise TypeError
  /\ (forall guild_id, GuildMember.__init__ payload guild_id = Raise AttributeError)
  /\ Integration.__init__ payload = Raise AttributeError.
Proof.
  intros Hobject. destruct payload as [| | | | | |d];
    try (repeat split; reflexivity).
  now destruct (Hobject d).
Qed.

End Payloads.

Lemma user_str_forms_witness :
  @Display.User__str__ Sample.builtins (Sample.user_of Sample.alice)
  = "Alice (@alice)"
  /\ @Display.User__str__ Sample.builtins (Sample.user_of Sample.alice_legacy)
     = "alice#4242"
  /\ @Display.User__str__ Sample.builtins
       (Sample.user_of Sample.alice_no_display_name)
     = "alice (@alice)".
Proof.
  split; [|split].
  - destruct (@user_str_forms Sample.builtins Sample.alice
                (Sample.user_of Sample.alice) eq_refl) as (_ & Hmigrated & _).
    destruct (Hmigrated eq_refl eq_refl) as [_ ->]. reflexivity.
  - destruct (@user_str_forms Sample.builtins Sample.alice_legacy
                (Sample.user_of Sample.alice_legacy) eq_refl) as (Hlegacy & _).
    rewrite (Hlegacy eq_refl). reflexivity.
  - destruct (@user_str_forms Sample.builtins Sample.alice_no_display_name
                (Sample.user_of Sample.alice_no_display_name) eq_refl)
      as (_ & Hmigrated & _).
    destruct (Hmigrated eq_refl eq_refl) as [_ ->]. reflexivity.
Defined.

Lemma member_str_precedence_witness :
  Display.GuildMember__str__ (Sample.member_of (Sample.member_payload VNone) 7)
  = Ok (VStr "alice")
  /\ Display.str_of_member
       (Sample.member_of (VDict [("user", VDict [("id", VInt 9)])]) 7)
     = Raise TypeError.
Proof.
  split.
  - destruct (member_str_precedence (Sample.member_payload VNone) 7
                (Sample.member_of (Sample.member_payload VNone) 7) eq_refl)
      as (user & Huser & Hstr & _).
    injection Huser as <-. exact Hstr.
  - destruct (member_str_precedence (VDict [("user", VDict [("id", VInt 9)])]) 7
                (Sample.member_of (VDict [("user", VDict [("id", VInt 9)])]) 7)
                eq_refl)
      as (user & Huser & _ & Hnone).
    injection Huser as <-. exact (Hnone eq_refl eq_refl eq_refl).
Defined.

Lemma non_object_payload_rejected_witness :
  User.__init__ (VList []) = Raise TypeError
  /\ GuildMember.__init__ (VStr "404: Not Found") 7 = Raise AttributeError.
Proof.
  split.
  - apply (non_object_payload_rejected (VList [])). discriminate.
  - apply (non_object_payload_rejected (VStr "404: Not Found")). discriminate.
Defined.

Lemma to_json_round_trip_witness :
  Display.User_to_json (Sample.user_of Sample.alice) = Sample.alice.
Proof.
  exact (proj1 (@to_json_round_trip Sample.client) Sample.alice
           (Sample.user_of Sample.alice) eq_refl).
Defined.

Section EqualityLaws.

(** X9.  [==] is an equivalence on [User] instances and on [GuildMember]
    instances, and an instance of one class never equals an instance of
    the other, not even with the same ID. *)
Theorem eq_is_equivalence (x y z : User.t) (a b c : GuildMember.t) :
  User__eq__ x (UserObject x) = true
  /\ User__eq__ x (UserObject y) = User__eq__ y (UserObject x)
  /\ (User__eq__ x (UserObject y) = true -> User__eq__ y (UserObject z) = true ->
      User__eq__ x (UserObject z) = true)
  /\ GuildMember__eq__ a (GuildMemberObject a) = true
  /\ GuildMember__eq__ a (GuildMemberObject b)
     = GuildMember__eq__ b (GuildMemberObject a)
  /\ (GuildMember__eq__ a (GuildMemberObject b) = true ->
      GuildMember__eq__ b (GuildMemberObject c) = true ->
      GuildMember__eq__ a (GuildMemberObject c) = true)
  /\ User__eq__ x (GuildMemberObject a) = false
  /\ GuildMember__eq__ a (UserObject x) = false
  /\ User__ne__ x (GuildMemberObject a) = true.
Proof.
  unfold User__ne__, User__eq__, GuildMember__eq__.
  repeat split;
    rewrite ?Z.eqb_refl, ?Z.eqb_eq; try reflexivity;
    try apply Z.eqb_sym; congruence.
Qed.

End EqualityLaws.

Lemma eq_is_equivalence_witness :
  let x := Sample.user_of Sample.alice in
  let a := Sample.member_of (Sample.member_payload VNone) 7 in
  User.id x = GuildMember.id a /\ User__eq__ x (GuildMemberObject a) = false.
Proof.
  split; [reflexivity|].
  exact (proj1 (proj2 (proj2 (proj2 (proj2 (proj2 (proj2
           (eq_is_equivalence (Sample.user_of Sample.alice)
              (Sample.user_of Sample.alice) (Sample.user_of Sample.alice)
              (Sample.member_of (Sample.member_payload VNone) 7)
              (Sample.member_of (Sample.member_payload VNone) 7)
              (Sample.member_of (Sample.member_payload VNone) 7))))))))).
Defined.

(* ===================================================================== *)
(** ** Further properties: requests and the guild-member cache             *)
(* ===================================================================== *)

Section MoreRequests.
Import Http.
Context `{Client}.

(** X10.  [add_to_guild] never changes the user it is called on and sends
    at most one request, which then is the PUT of this user and guild with
    a token of the session; whatever goes wrong before the token is in
    hand sends nothing. *)
Theorem add_to_guild_frame (guild_id : Z) (w : World User.t) :
  self (snd (User.add_to_guild guild_id w)) = self w
  /\ (calls (snd (User.add_to_guild guild_id w)) = calls w
      /\ (exists e, fst (User.add_to_guild guild_id w) = Raise e)
      \/ exists token access_token,
           get_authorization_token = Ok token
           /\ getitem token "access_token" = Ok access_token
           /\ calls (snd (User.add_to_guild guild_id w))
              = calls w ++ [User.add_to_guild_call guild_id (self w) access_token]).
Proof.
  unfold User.add_to_guild.
  destruct get_authorization_token as [token|e]; cbn [res_bind].
  - destruct (getitem token "access_token") as [access_token|e] eqn:Hitem;
      cbn [res_bind].
    + unfold bind, get_self, _bot_request, send, ret. cbn [self calls].
      split; [now destruct (respond _ _)|].
      right. exists token, access_token.
      repeat split; [exact Hitem|]. now destruct (respond _ _).
    + destruct e; (split; [reflexivity | left; split; [reflexivity | eauto]]).
  - destruct e; (split; [reflexivity | left; split; [reflexivity | eauto]]).
Qed.

(** The loop of [fetch_guild_members] stops at the first guild whose
    member cannot be fetched: the guilds before it are done, the failing
    request is the last one sent, and the user is as the guilds done left
    it. *)
Lemma fetch_each_raises (todo : list Guild.t) :
  forall w e w',
    User.fetch_each todo w = (Raise e, w') ->
    exists done failed rest w1,
      todo = done ++ failed :: rest
      /\ User.fetch_each done w = (Ok tt, w1)
      /\ self w' = self w1
      /\ calls w' = calls w1 ++ [GuildMember.fetch_call (Guild.id failed)].
Proof.
  induction todo as [|guild todo IH]; intros w e w'.
  - discriminate.
  - cbn [User.fetch_each]. rewrite fetch_then_store. cbn zeta.
    destruct (respond _ _) as [payload|e0] eqn:Hresp.
    + destruct (Guild.id guild =? 0)%Z eqn:Hzero.
      * intros [= <- <-]. exists [], guild, todo, w. now destruct w.
      * destruct (GuildMember.__init__ payload (Guild.id guild)) as [m|e0] eqn:Hinit.
        -- intros Hrest. apply IH in Hrest as (done & failed & rest & w1 & -> & Hdone & Hw).
           exists (guild :: done), failed, rest, w1. split; [reflexivity|].
           split; [|exact Hw].
           cbn [User.fetch_each]. rewrite fetch_then_store. cbn zeta.
           now rewrite Hresp, Hzero, Hinit.
        -- intros [= <- <-]. exists [], guild, todo, w. now destruct w.
    + intros [= <- <-]. exists [], guild, todo, w. now destruct w.
Qed.

(** X11.  [fetch_guild_members] is not all-or-nothing: when it raises on
    a cached guild, the members of the guilds before that one stay stored
    under their guild IDs, the failing request is the last one sent, and
    the guilds after it are never asked for. *)
Theorem fetch_guild_members_stops_at_failure (u : User.t) (log : list Call)
    (cache : list (Z * Guild.t)) (e : exn) (w' : World User.t) :
  User._guilds u = Some cache ->
  User.fetch_guild_members {| self := u; calls := log |} = (Raise e, w') ->
  exists done failed rest,
    map snd cache = done ++ failed :: rest
    /\ calls w'
       = log ++ map (fun g => GuildMember.fetch_call (Guild.id g)) (done ++ [failed])
    /\ self w' = User.with_guild_members u (User.guild_members (self w'))
    /\ (forall g, g ∈ done ->
          exists m, User.guild_members (self w') !! Guild.id g = Some m
                    /\ GuildMember.guild_id m = Guild.id g)
    /\ (forall k, k ∉ map Guild.id done ->
          User.guild_members (self w') !! k = User.guild_members u !! k).
Proof.
  intros Hcache. rewrite fetch_guild_members_run. cbn [self]. rewrite Hcache.
  destruct (User.fetch_each _ _) as [[[]|e0] w1] eqn:Hloop; [discriminate|].
  intros [= <- <-].
  apply fetch_each_raises in Hloop as (done & failed & rest & w2 & Hsplit & Hdone & Hself & Hcalls).
  apply fetch_each_ok in Hdone as (Hcalls2 & Hself2 & Hin & Hout).
  cbn [self calls] in *. exists done, failed, rest.
  unfold User.guild_members. rewrite Hself.
  split; [exact Hsplit|]. split; [|split; [exact Hself2|split; assumption]].
  rewrite Hcalls, Hcalls2, map_app, <- app_assoc. reflexivity.
Qed.

(** A guild with ID 0 cannot be passed: its request carries the unfilled
    placeholder and the member cannot be constructed. *)
Lemma fetch_each_zero (todo : list Guild.t) :
  forall w w' g,
    g ∈ todo -> Guild.id g = 0%Z -> User.fetch_each todo w <> (Ok tt, w').
Proof.
  induction todo as [|guild todo IH]; intros w w' g Hg Hzero.
  - inversion Hg.
  - cbn [User.fetch_each]. rewrite fetch_then_store. cbn zeta.
    destruct (respond _ _) as [payload|]; [|discriminate].
    destruct (Guild.id guild =? 0)%Z eqn:Hguild; [discriminate|].
    destruct (GuildMember.__init__ payload (Guild.id guild)); [|discriminate].
    apply elem_of_cons in Hg as [->|Hg].
    + apply Z.eqb_neq in Hguild. contradiction.
    + now apply IH with g.
Qed.

(** X12.  Guild ID 0 is the "no guild" value of [fetch_from_api]: whatever
    the remote API answers, [fetch_guild_member(0)] raises, and
    [fetch_guild_members] raises as soon as the guild cache holds a guild
    with ID 0. *)
Theorem guild_zero_never_fetched (w : World User.t) :
  (exists e, fst (User.fetch_guild_member 0 w) = Raise e)
  /\ (forall cache kv,
        User._guilds (self w) = Some cache ->
        kv ∈ cache -> Guild.id kv.2 = 0%Z ->
        exists e, fst (User.fetch_guild_members w) = Raise e).
Proof.
  split.
  - unfold User.fetch_guild_member. rewrite fetch_then_store. cbn zeta.
    destruct (respond _ _); cbn; eauto.
  - intros cache kv Hcache Hkv Hzero. rewrite fetch_guild_members_run, Hcache.
    destruct (User.fetch_each _ _) as [[[]|e] w1] eqn:Hloop; [|cbn; eauto].
    exfalso. apply (fetch_each_zero (map snd cache) w w1 kv.2); try assumption.
    apply list_elem_of_fmap. eauto.
Qed.

Lemma keyed_by_guild_insert members guild_id m :
  keyed_by_guild members -> GuildMember.guild_id m = guild_id ->
  keyed_by_guild (<[guild_id := m]> members).
Proof.
  intros Hkeyed Hm key member. rewrite lookup_insert. case_decide as Hkey.
  - intros [= <-]. now rewrite <- Hkey.
  - apply Hkeyed.
Qed.

(** The loop keeps stored members under their own guild IDs, however it
    ends. *)
Lemma fetch_each_keyed (todo : list Guild.t) :
  forall w r w',
    keyed_by_guild (User._guild_members (self w)) ->
    User.fetch_each todo w = (r, w') ->
    keyed_by_guild (User._guild_members (self w')).
Proof.
  induction todo as [|guild todo IH]; intros w r w' Hkeyed.
  - cbn. unfold ret. now intros [= <- <-].
  - cbn [User.fetch_each]. rewrite fetch_then_store. cbn zeta.
    destruct (respond _ _) as [payload|]; [|now intros [= <- <-]].
    destruct (Guild.id guild =? 0)%Z; [now intros [= <- <-]|].
    destruct (GuildMember.__init__ payload (Guild.id guild)) as [m|] eqn:Hinit;
      [|now intros [= <- <-]].
    apply IH. cbn [self User.with_guild_members User._guild_members].
    apply keyed_by_guild_insert; [exact Hkeyed|].
    eapply GuildMember_init_guild_id; eassumption.
Qed.

(** X13.  Every member in a user's guild-members mapping is stored under
    the ID of its own guild: the mapping of a freshly constructed user is
    empty, and [fetch_guild_member] and [fetch_guild_members] keep the
    property whether they return or raise. *)
Theorem members_keyed_by_guild :
  (forall payload u, User.__init__ payload = Ok u ->
     keyed_by_guild (User.guild_members u))
  /\ (forall guild_id w,
        keyed_by_guild (User.guild_members (self w)) ->
        keyed_by_guild
          (User.guild_members (self (snd (User.fetch_guild_member guild_id w)))))
  /\ (forall w,
        keyed_by_guild (User.guild_members (self w)) ->
        keyed_by_guild
          (User.guild_members (self (snd (User.fetch_guild_members w))))).
Proof.
  unfold User.guild_members. split; [|split].
  - intros payload u Hinit. destruct (User_init_is_dict _ _ Hinit) as [d ->].
    rewrite User_init_dict in Hinit.
    destruct (assoc "id" d) as [id_raw|]; [|discriminate].
    destruct (int id_raw); [|discriminate].
    destruct (assoc "username" d); [|discriminate].
    destruct (assoc "discriminator" d); [|discriminate].
    injection Hinit as <-. intros key member. cbn. now rewrite lookup_empty.
  - intros guild_id w Hkeyed.
    unfold User.fetch_guild_member. rewrite fetch_then_store. cbn zeta.
    destruct (respond _ _) as [payload|]; [|exact Hkeyed].
    destruct (guild_id =? 0)%Z; [exact Hkeyed|].
    destruct (GuildMember.__init__ payload guild_id) as [m|] eqn:Hinit;
      [|exact Hkeyed].
    unfold ret. cbn [snd self User.with_guild_members User._guild_members].
    apply keyed_by_guild_insert; [exact Hkeyed|].
    eapply GuildMember_init_guild_id; eassumption.
  - intros w Hkeyed. rewrite fetch_guild_members_run.
    destruct (User._guilds (self w)) as [cache|]; [|exact Hkeyed].
    destruct (User.fetch_each _ _) as [[[]|e] w1] eqn:Hloop;
      cbn [snd]; eapply fetch_each_keyed; eassumption.
Qed.

(** X14.  Fetching the member of the same guild twice overwrites: after
    two successful calls the mapping holds the member fetched last under
    that guild ID, exactly as if only the second call had been made, and
    two requests have been sent. *)
Theorem fetch_guild_member_twice (u : User.t) (guild_id : Z) (log : list Call)
    (first second : value) (m1 m2 : GuildMember.t) :
  guild_id <> 0%Z ->
  respond log (GuildMember.fetch_call guild_id) = Ok first ->
  GuildMember.__init__ first guild_id = Ok m1 ->
  respond (log ++ [GuildMember.fetch_call guild_id])
    (GuildMember.fetch_call guild_id) = Ok second ->
  GuildMember.__init__ second guild_id = Ok m2 ->
  bind (User.fetch_guild_member guild_id)
       (fun _ => User.fetch_guild_member guild_id) {| self := u; calls := log |}
  = (Ok (Base.One m2),
     {| self := User.with_guild_members u
                  (<[guild_id := m2]> (User.guild_members u));
        calls := log ++ [GuildMember.fetch_call guild_id;
                         GuildMember.fetch_call guild_id] |}).
Proof.
  intros Hg Hfirst Hm1 Hsecond Hm2. apply Z.eqb_neq in Hg.
  unfold bind at 1, User.fetch_guild_member. rewrite fetch_then_store. cbn zeta.
  cbn [self calls]. rewrite Hfirst, Hg, Hm1. unfold ret at 1.
  rewrite fetch_then_store. cbn zeta. cbn [self calls].
  rewrite Hsecond, Hg, Hm2. unfold ret, User.guild_members.
  cbn [User.with_guild_members User._guild_members].
  now rewrite insert_insert_eq, <- app_assoc.
Qed.

End MoreRequests.

(* ===================================================================== *)
(** ** Further properties: the guild cache, the users cache, the session   *)
(* ===================================================================== *)

Section GuildCache.
Import Http Guilds.
Context `{Client} `{Siblings}.

Lemma dict_set_keys k v d :
  map fst (dict_set k v d)
  = if decide (k ∈ map fst d) then map fst d else map fst d ++ [k].
Proof.
  induction d as [|[k' v'] d IH]; [reflexivity|]. cbn.
  destruct (k =? k')%Z eqn:Hk.
  - apply Z.eqb_eq in Hk as ->. rewrite decide_True by (apply elem_of_cons; now left).
    reflexivity.
  - apply Z.eqb_neq in Hk. cbn. rewrite IH.
    destruct (decide (k ∈ map fst d)) as [Hin|Hin].
    + rewrite decide_True by (apply elem_of_cons; now right). reflexivity.
    + rewrite decide_False; [reflexivity|].
      intros [?|?]%elem_of_cons; contradiction.
Qed.

Lemma dict_set_NoDup k v d : NoDup (map fst d) -> NoDup (map fst (dict_set k v d)).
Proof.
  intros Hd. rewrite dict_set_keys. case_decide as Hin; [exact Hd|].
  apply NoDup_app. repeat split; [exact Hd | | apply NoDup_singleton].
  intros x Hx ->%list_elem_of_singleton. contradiction.
Qed.

Lemma dict_set_elem k v d k' v' :
  (k', v') ∈ dict_set k v d -> (k' = k /\ v' = v) \/ (k', v') ∈ d.
Proof.
  induction d as [|[k0 v0] d IH]; cbn.
  - intros [= -> ->]%list_elem_of_singleton. now left.
  - destruct (k =? k0)%Z eqn:Hk.
    + apply Z.eqb_eq in Hk as ->.
      intros [[= -> ->]|Hin]%elem_of_cons; [now left|].
      right. apply elem_of_cons. now right.
    + intros [[= -> ->]|Hin]%elem_of_cons.
      * right. apply elem_of_cons. now left.
      * destruct (IH Hin) as [?|?]; [now left|].
        right. apply elem_of_cons. now right.
Qed.

(** The dictionary built from a list of guilds: no key twice, every guild
    under its own ID, every ID of the list among the keys. *)
Lemma dict_of_guilds_spec (guilds : list Guild.t) :
  forall d,
    NoDup (map fst d) ->
    (forall k g, (k, g) ∈ d -> k = Guild.id g) ->
    let d' := dict_of_guilds guilds d in
    NoDup (map fst d')
    /\ (forall k g, (k, g) ∈ d' -> k = Guild.id g /\ (g ∈ guilds \/ (k, g) ∈ d))
    /\ (forall g, g ∈ guilds -> Guild.id g ∈ map fst d')
    /\ (forall k, k ∈ map fst d -> k ∈ map fst d').
Proof.
  induction guilds as [|guild guilds IH]; intros d Hnodup Hkeyed; cbn.
  - repeat split; auto. intros g Hg. inversion Hg.
  - destruct (IH (dict_set (Guild.id guild) guild d)) as (Hnd & Helem & Hids & Hkeys).
    + now apply dict_set_NoDup.
    + intros k g [[-> ->]|Hin]%dict_set_elem; [reflexivity | now apply Hkeyed].
    + assert (Hgrow : forall k, k ∈ map fst d ->
                        k ∈ map fst (dict_set (Guild.id guild) guild d)).
      { intros k Hk. rewrite dict_set_keys. case_decide; [exact Hk|].
        apply elem_of_app. now left. }
      assert (Hnew : Guild.id guild ∈ map fst (dict_set (Guild.id guild) guild d)).
      { rewrite dict_set_keys. case_decide as Hin; [exact Hin|].
        apply elem_of_app. right. now apply list_elem_of_singleton. }
      split; [exact Hnd|]. split; [|split].
      * intros k g Hkg. destruct (Helem k g Hkg) as [Hid [Hg|Hg]].
        -- split; [exact Hid|]. left. apply elem_of_cons. now right.
        -- split; [exact Hid|].
           apply dict_set_elem in Hg as [[-> ->]|Hg]; [|now right].
           left. apply elem_of_cons. now left.
      * intros g [->|Hg]%elem_of_cons; [now apply Hkeys | now apply Hids].
      * intros k Hk. now apply Hkeys, Hgrow.
Qed.

Lemma dict_of_guilds_fresh (guilds : list Guild.t) :
  let cache := dict_of_guilds guilds [] in
  NoDup (map fst cache)
  /\ (forall k g, (k, g) ∈ cache -> k = Guild.id g /\ g ∈ guilds)
  /\ (forall g, g ∈ guilds -> Guild.id g ∈ map fst cache).
Proof.
  destruct (dict_of_guilds_spec guilds []) as (Hnd & Helem & Hids & _).
  { constructor. } { intros k g Hin. inversion Hin. }
  split; [exact Hnd|]. split; [|exact Hids].
  intros k g Hkg. destruct (Helem k g Hkg) as [Hid [Hg|Hg]]; [auto|inversion Hg].
Qed.

Lemma fetch_guilds_run (u : User.t) (log log' : list Call) (guilds : list Guild.t) :
  Guild_fetch_from_api log = (Ok (Base.Many guilds), log') ->
  fetch_guilds {| self := u; calls := log |}
  = (Ok (Some (map snd (dict_of_guilds guilds []))),
     {| self := User.with_guilds u (Some (dict_of_guilds guilds [])); calls := log' |}).
Proof.
  intros Hfetch. unfold fetch_guilds, bind, on_log. cbn [calls self].
  now rewrite Hfetch.
Qed.

(** X15.  [fetch_guilds] replaces the guild cache as a whole: whatever was
    cached before, the new cache is the dictionary of the guilds fetched,
    with no ID twice, every guild under its own ID and every fetched ID
    present; the list of its guilds is returned, and the guild members and
    all other fields of the user are untouched. *)
Theorem fetch_guilds_replaces_cache (u : User.t) (log log' : list Call)
    (guilds : list Guild.t) :
  Guild_fetch_from_api log = (Ok (Base.Many guilds), log') ->
  let cache := dict_of_guilds guilds [] in
  fetch_guilds {| self := u; calls := log |}
  = (Ok (Some (map snd cache)),
     {| self := User.with_guilds u (Some cache); calls := log' |})
  /\ NoDup (map fst cache)
  /\ (forall k g, (k, g) ∈ cache -> k = Guild.id g /\ g ∈ guilds)
  /\ (forall g, g ∈ guilds -> Guild.id g ∈ map fst cache)
  /\ User.guild_members (User.with_guilds u (Some cache)) = User.guild_members u.
Proof.
  intros Hfetch cache.
  destruct (dict_of_guilds_fresh guilds) as (Hnd & Helem & Hids).
  split; [now apply fetch_guilds_run|].
  split; [exact Hnd|]. split; [exact Helem|]. split; [exact Hids|reflexivity].
Qed.

(** X16.  [fetch_guilds()] followed by [fetch_guild_members()]: when both
    return, one member request has been sent per distinct guild ID
    fetched, and the mapping returned has, under the ID of every fetched
    guild, a member of that guild. *)
Theorem fetch_guilds_then_members (u : User.t) (log log' : list Call)
    (guilds : list Guild.t) (members : gmap Z GuildMember.t)
    (w' : World User.t) :
  Guild_fetch_from_api log = (Ok (Base.Many guilds), log') ->
  bind fetch_guilds (fun _ => User.fetch_guild_members)
    {| self := u; calls := log |} = (Ok members, w') ->
  calls w'
  = log' ++ map (fun kv => GuildMember.fetch_call kv.1) (dict_of_guilds guilds [])
  /\ NoDup (map fst (dict_of_guilds guilds []))
  /\ (forall g, g ∈ guilds ->
        exists m, members !! Guild.id g = Some m
                  /\ GuildMember.guild_id m = Guild.id g).
Proof.
  intros Hfetch.
  pose proof (fetch_guilds_run u log log' guilds Hfetch) as Hrun.
  destruct (dict_of_guilds_fresh guilds) as (Hnd & Helem & Hids).
  unfold bind at 1. rewrite Hrun, fetch_guild_members_run.
  cbn [self User.with_guilds User._guilds].
  destruct (User.fetch_each _ _) as [[[]|e] w1] eqn:Hloop; [|discriminate].
  intros [= <- <-].
  apply fetch_each_ok in Hloop as (Hcalls & _ & Hin & _). cbn [self calls] in *.
  split; [|split; [exact Hnd|]].
  - rewrite Hcalls, map_map.
    assert (Hsame : map (fun kv => GuildMember.fetch_call (Guild.id kv.2))
                      (dict_of_guilds guilds [])
                    = map (fun kv => GuildMember.fetch_call kv.1)
                        (dict_of_guilds guilds [])).
    { apply map_ext_in. intros [k g] Hkg%list_elem_of_In.
      destruct (Helem k g Hkg) as [Hid _]. cbn [fst snd]. now rewrite Hid. }
    now rewrite <- Hsame.
  - intros g Hg. apply Hids, list_elem_of_fmap in Hg as ([k g'] & Hk & Hkg').
    cbn in Hk. destruct (Helem k g' Hkg') as [Hid _].
    destruct (Hin g') as (m & Hm & Hguild); [apply list_elem_of_fmap; now exists (k, g')|].
    exists m. unfold User.guild_members. rewrite Hk, Hid. split; assumption.
Qed.

End GuildCache.

Section UsersCache.
Import Http Guilds.
Context `{Client} `{Siblings}.

(** X17.  [GuildMember.fetch_from_api] with [cache=False], or with
    [cache=True] while no user is cached under the session's user ID, is
    the plain fetch: the same outcome, the same single request, and the
    users cache and the session as they were. *)
Theorem member_fetch_cache_skipped (guild_id : Z) (cache : bool) (w : World App.t) :
  cache = false \/ App.get_from_cache (self w) = None ->
  App.GuildMember_fetch_from_api guild_id cache w
  = GuildMember.fetch_from_api guild_id w.
Proof.
  intros Hskip. unfold App.GuildMember_fetch_from_api, bind.
  change (Base.fetch_from_api GuildMember.cls guild_id w)
    with (GuildMember.fetch_from_api guild_id w).
  destruct (GuildMember.fetch_from_api guild_id w) as [[member|e] w1] eqn:Hrun;
    [|reflexivity].
  destruct cache; [|reflexivity].
  destruct Hskip as [|Hnone]; [discriminate|].
  rewrite GuildMember_fetch_run in Hrun. injection Hrun as _ <-.
  unfold get_self. cbn [self]. unfold App.get_from_cache in Hnone.
  rewrite Hnone. now destruct (App.user_id (self w)).
Qed.

(** X18.  [GuildMember.fetch_from_api] with [cache=True], a guild ID other
    than 0 and the current user in the cache: the fetched member is
    returned and stored in that user's guild-members mapping under the
    guild ID; the other cached users and the session are untouched. *)
Theorem member_fetch_updates_current_user (guild_id key : Z) (app : App.t)
    (log : list Call) (user : User.t) (payload : value) (m : GuildMember.t) :
  guild_id <> 0%Z ->
  App.user_id app = Some key ->
  App.users_cache app !! key = Some user ->
  respond log (GuildMember.fetch_call guild_id) = Ok payload ->
  GuildMember.__init__ payload guild_id = Ok m ->
  exists app',
    App.GuildMember_fetch_from_api guild_id true {| self := app; calls := log |}
    = (Ok (Base.One m),
       {| self := app'; calls := log ++ [GuildMember.fetch_call guild_id] |})
    /\ App.get_from_cache app'
       = Some (User.with_guild_members user
                 (<[guild_id := m]> (User.guild_members user)))
    /\ (forall other, other <> key ->
          App.users_cache app' !! other = App.users_cache app !! other)
    /\ App.DISCORD_USER_ID app' = App.DISCORD_USER_ID app.
Proof.
  intros Hg Hkey Huser Hresp Hinit. apply Z.eqb_neq in Hg.
  eexists. split.
  - unfold App.GuildMember_fetch_from_api, bind at 1.
    change (Base.fetch_from_api GuildMember.cls guild_id ?w)
      with (GuildMember.fetch_from_api guild_id w).
    rewrite GuildMember_fetch_run. cbn [self calls].
    rewrite Hresp, Hg, Hinit. unfold bind, get_self, set_self, ret.
    cbn [self calls]. rewrite Hkey. cbn [App.cache_get]. rewrite Huser.
    rewrite (GuildMember_init_guild_id _ _ _ Hinit). reflexivity.
  - unfold App.get_from_cache, App.user_id, App.cache_put in *.
    cbn [App.users_cache App.DISCORD_USER_ID]. rewrite Hkey.
    cbn [App.cache_get App.users_cache]. rewrite lookup_insert_eq.
    repeat split. intros other Hother. now apply lookup_insert_ne.
Qed.

(** X19.  [User.fetch_from_api()] without [guilds] and [connections]
    sends the one request for the current user, stores the constructed
    user in the users cache under its ID and that ID in the session, so
    that [get_from_cache()] then returns this user; the [members] flag
    alone does nothing.  The user stored is a fresh object without guild
    caches, whatever the cache held under that ID before; users cached
    under other IDs stay. *)
Theorem user_fetch_caches_current_user (app : App.t) (log : list Call)
    (payload : value) (u : User.t) (members : bool) :
  respond log App.current_user_call = Ok payload ->
  User.__init__ payload = Ok u ->
  exists app',
    App.User_fetch_from_api false false members {| self := app; calls := log |}
    = (Ok u, {| self := app'; calls := log ++ [App.current_user_call] |})
    /\ App.get_from_cache app' = Some u
    /\ App.user_id app' = Some (User.id u)
    /\ User._guilds u = None /\ User.guild_members u = ∅
    /\ (forall other, other <> User.id u ->
          App.users_cache app' !! other = App.users_cache app !! other).
Proof.
  intros Hresp Hinit. eexists. split.
  - unfold App.User_fetch_from_api, bind at 1.
    unfold Base.fetch_from_api, bind, _request, send, lift.
    cbn [Z.eqb negb Base.BOT Base.MANY Base.ROUTE Base.new User.cls User.new
         self calls].
    change {| bot := false; method := "GET"; route := "/users/@me"; json := None |}
      with App.current_user_call.
    rewrite Hresp, Hinit. cbn [res_bind]. unfold get_self, set_self, ret.
    cbn [self calls andb]. reflexivity.
  - unfold App.get_from_cache, App.user_id, App.session_put, App.cache_put.
    cbn [App.users_cache App.DISCORD_USER_ID App.cache_get].
    rewrite lookup_insert_eq.
    assert (Hfresh : User._guilds u = None /\ User.guild_members u = ∅).
    { destruct (User_init_is_dict _ _ Hinit) as [d ->].
      rewrite User_init_dict in Hinit.
      destruct (assoc "id" d) as [id_raw|]; [|discriminate].
      destruct (int id_raw); [|discriminate].
      destruct (assoc "username" d); [|discriminate].
      destruct (assoc "discriminator" d); [|discriminate].
      now injection Hinit as <-. }
    destruct Hfresh. repeat split; try assumption.
    intros other Hother. now apply lookup_insert_ne.
Qed.

Lemma dict_set_not_nil k v d : dict_set k v d <> [].
Proof. destruct d as [|[k' v'] d]; cbn; [|destruct (k =? k')%Z]; discriminate. Qed.

Lemma dict_of_guilds_not_nil guilds d : d <> [] -> dict_of_guilds guilds d <> [].
Proof.
  revert d. induction guilds as [|guild guilds IH]; intros d Hd; cbn; [exact Hd|].
  apply IH, dict_set_not_nil.
Qed.

(** X20.  [User.fetch_from_api(guilds=True, members=True)]: its closing
    loop passes a guild ID to [fetch_guild_members], which takes none, so
    the call raises [TypeError] as soon as the user is in at least one
    guild, after the user and its guilds have been cached and without a
    single member request; with no guild the loop does not run and the
    user is returned. *)
Theorem user_fetch_with_members_raises (app : App.t) (log log' : list Call)
    (payload : value) (u : User.t) (guilds : list Guild.t) :
  respond log App.current_user_call = Ok payload ->
  User.__init__ payload = Ok u ->
  Guild_fetch_from_api (log ++ [App.current_user_call])
  = (Ok (Base.Many guilds), log') ->
  let cached := User.with_guilds u (Some (dict_of_guilds guilds [])) in
  exists app',
    App.User_fetch_from_api true false true {| self := app; calls := log |}
    = (if guilds is [] then Ok cached else Raise TypeError,
       {| self := app'; calls := log' |})
    /\ App.get_from_cache app' = Some cached.
Proof.
  intros Hresp Hinit Hguilds cached.
  exists (App.cache_put
            (App.session_put (App.cache_put app (User.id u) u) (User.id u))
            (User.id u) cached).
  split.
  - unfold App.User_fetch_from_api, Base.fetch_from_api, bind, _request, send,
      lift, get_self, set_self, ret, raise, App.on_cached.
    cbn [Z.eqb negb Base.BOT Base.MANY Base.ROUTE Base.new User.cls User.new
         self calls andb].
    change {| bot := false; method := "GET"; route := "/users/@me"; json := None |}
      with App.current_user_call.
    rewrite Hresp, Hinit. cbn [res_bind self calls].
    rewrite (fetch_guilds_run u _ log' guilds Hguilds).
    cbn [self calls snd User.guilds User.with_guilds User._guilds].
    fold cached. destruct guilds as [|guild guilds]; [reflexivity|].
    destruct (dict_of_guilds (guild :: guilds) []) as [|kv cache] eqn:Hdict;
      [|reflexivity].
    exfalso. revert Hdict. cbn [dict_of_guilds].
    apply dict_of_guilds_not_nil, dict_set_not_nil.
  - unfold App.get_from_cache, App.user_id, App.cache_put, App.session_put.
    cbn [App.users_cache App.DISCORD_USER_ID App.cache_get].
    apply lookup_insert_eq.
Qed.

End UsersCache.

Section MoreExamples.
Import Http.

Lemma fetch_from_api_one_request_witness :
  let w := {| self := tt; calls := [] |} in
  fst (@Base.fetch_from_api _ _ Fixtures.client_guild_1 GuildMember.cls 2 w)
  = Raise (HTTPError 404)
  /\ calls (snd (@Base.fetch_from_api _ _ Fixtures.client_guild_1 GuildMember.cls 2 w))
     = [{| bot := false; method := "GET"; route := "/users/@me/guilds/2/member";
           json := None |}].
Proof.
  destruct (@fetch_from_api_one_request Fixtures.client_guild_1 unit _
              GuildMember.cls 2 {| self := tt; calls := [] |}) as [Hlog Hraise].
  split; [exact (Hraise (HTTPError 404) eq_refl) | now rewrite Hlog].
Defined.

Lemma fetch_guild_members_stops_at_failure_witness :
  let cache := [(1%Z, Sample.guild 1); (2%Z, Sample.guild 2); (3%Z, Sample.guild 3)] in
  let u := User.with_guilds (Sample.user_of Sample.alice) (Some cache) in
  let w' := snd (@User.fetch_guild_members Fixtures.client_guild_1
                   {| self := u; calls := [] |}) in
  length (calls w') = 2
  /\ exists done failed rest,
       map snd cache = done ++ failed :: rest
       /\ forall g, g ∈ done ->
            exists m, User.guild_members (self w') !! Guild.id g = Some m
                      /\ GuildMember.guild_id m = Guild.id g.
Proof.
  intros cache u w'. split; [vm_compute; reflexivity|].
  assert (Hrun : @User.fetch_guild_members Fixtures.client_guild_1
                   {| self := u; calls := [] |} = (Raise (HTTPError 404), w'))
    by (vm_compute; reflexivity).
  destruct (@fetch_guild_members_stops_at_failure Fixtures.client_guild_1
              u [] cache (HTTPError 404) w' eq_refl Hrun)
    as (done & failed & rest & Hsplit & _ & _ & Hdone & _).
  exists done, failed, rest. split; [exact Hsplit | exact Hdone].
Defined.

Lemma guild_zero_never_fetched_witness :
  let u := User.with_guilds (Sample.user_of Sample.alice)
             (Some [(1%Z, Sample.guild 1); (0%Z, Sample.guild 0)]) in
  exists e, fst (@User.fetch_guild_members Sample.client {| self := u; calls := [] |})
            = Raise e.
Proof.
  intros u.
  apply (proj2 (@guild_zero_never_fetched Sample.client {| self := u; calls := [] |})
           [(1%Z, Sample.guild 1); (0%Z, Sample.guild 0)] (0%Z, Sample.guild 0)
           eq_refl).
  - apply elem_of_cons. right. apply elem_of_cons. now left.
  - reflexivity.
Defined.

Lemma members_keyed_by_guild_witness :
  keyed_by_guild
    (User.guild_members
       (self (snd (@User.fetch_guild_member Sample.client 7
                     {| self := Sample.alice_in_guild_5; calls := [] |})))).
Proof.
  apply (proj1 (proj2 (@members_keyed_by_guild Sample.client)) 7%Z
           {| self := Sample.alice_in_guild_5; calls := [] |}).
  intros key member. unfold Sample.alice_in_guild_5, User.guild_members.
  cbn [self User.with_guild_members User._guild_members].
  intros [<- <-]%lookup_singleton_Some. reflexivity.
Defined.

Lemma fetch_guild_member_twice_witness :
  let m := Sample.member_of (Sample.member_payload VNone) 7 in
  bind (@User.fetch_guild_member Sample.client 7)
       (fun _ => @User.fetch_guild_member Sample.client 7)
       {| self := Sample.alice_in_guild_5; calls := [] |}
  = (Ok (Base.One m),
     {| self := User.with_guild_members Sample.alice_in_guild_5
                  (<[7%Z := m]> (User.guild_members Sample.alice_in_guild_5));
        calls := [] ++ [GuildMember.fetch_call 7; GuildMember.fetch_call 7] |}).
Proof.
  intros m.
  apply (@fetch_guild_member_twice Sample.client Sample.alice_in_guild_5 7 []
           (Sample.member_payload VNone) (Sample.member_payload VNone) m m);
    [discriminate | reflexivity ..].
Defined.

Lemma fetch_guilds_replaces_cache_witness :
  let u := User.with_guilds Sample.alice_in_guild_5 (Some [(9%Z, Sample.guild 9)]) in
  @Guilds.fetch_guilds Fixtures.two_guilds {| self := u; calls := [] |}
  = (Ok (Some [Sample.guild 1; Sample.guild 2]),
     {| self := User.with_guilds u
                  (Some [(1%Z, Sample.guild 1); (2%Z, Sample.guild 2)]);
        calls := [Fixtures.guilds_call] |}).
Proof.
  intros u.
  exact (proj1 (@fetch_guilds_replaces_cache Fixtures.two_guilds u []
                  [Fixtures.guilds_call] [Sample.guild 1; Sample.guild 2] eq_refl)).
Defined.

Lemma fetch_guilds_then_members_witness :
  exists members w',
    bind (@Guilds.fetch_guilds Fixtures.two_guilds)
         (fun _ => @User.fetch_guild_members Sample.client)
         {| self := Sample.user_of Sample.alice; calls := [] |}
    = (Ok members, w')
    /\ length (calls w') = 3
    /\ exists m, members !! 2%Z = Some m /\ GuildMember.guild_id m = 2%Z.
Proof.
  destruct (bind (@Guilds.fetch_guilds Fixtures.two_guilds)
              (fun _ => @User.fetch_guild_members Sample.client)
              {| self := Sample.user_of Sample.alice; calls := [] |})
    as [[members|e] w'] eqn:Hrun; [|discriminate].
  exists members, w'. split; [reflexivity|].
  destruct (@fetch_guilds_then_members Sample.client Fixtures.two_guilds
              (Sample.user_of Sample.alice) [] [Fixtures.guilds_call]
              [Sample.guild 1; Sample.guild 2] members w' eq_refl Hrun)
    as (Hcalls & _ & Hmembers).
  split; [now rewrite Hcalls|].
  apply (Hmembers (Sample.guild 2)). apply elem_of_cons. right.
  apply elem_of_cons. now left.
Defined.

Lemma member_fetch_cache_skipped_witness :
  let w := {| self := Fixtures.empty_app; calls := [] |} in
  @App.GuildMember_fetch_from_api Sample.client 7 true w
  = @GuildMember.fetch_from_api _ Sample.client 7 w.
Proof.
  intros w. apply (@member_fetch_cache_skipped Sample.client 7 true w).
  right. reflexivity.
Defined.

Lemma member_fetch_updates_current_user_witness :
  let m := Sample.member_of (Sample.member_payload VNone) 7 in
  exists app',
    @App.GuildMember_fetch_from_api Sample.client 7 true
      {| self := Fixtures.app_with_alice; calls := [] |}
    = (Ok (Base.One m),
       {| self := app'; calls := [] ++ [GuildMember.fetch_call 7] |})
    /\ App.users_cache app' !! 456%Z = Some (Sample.user_of Fixtures.bob).
Proof.
  intros m.
  destruct (@member_fetch_updates_current_user Sample.client 7 123
              Fixtures.app_with_alice [] (Sample.user_of Sample.alice)
              (Sample.member_payload VNone) m)
    as (app' & Hrun & _ & Hothers & _);
    [discriminate | reflexivity ..|].
  exists app'. split; [exact Hrun|].
  rewrite Hothers by discriminate. reflexivity.
Defined.

Lemma user_fetch_caches_current_user_witness :
  exists app',
    @App.User_fetch_from_api Fixtures.client_alice Fixtures.no_guilds
      false false true
      {| self := Fixtures.app_with_alice; calls := [] |}
    = (Ok (Sample.user_of Sample.alice),
       {| self := app'; calls := [] ++ [App.current_user_call] |})
    /\ App.get_from_cache app' = Some (Sample.user_of Sample.alice).
Proof.
  destruct (@user_fetch_caches_current_user Fixtures.client_alice
              Fixtures.no_guilds Fixtures.app_with_alice [] Sample.alice
              (Sample.user_of Sample.alice) true eq_refl eq_refl)
    as (app' & Hrun & Hcached & _).
  exists app'. split; assumption.
Defined.

Lemma user_fetch_with_members_raises_witness :
  exists app',
    @App.User_fetch_from_api Fixtures.client_alice Fixtures.two_guilds
      true false true {| self := Fixtures.empty_app; calls := [] |}
    = (Raise TypeError,
       {| self := app'; calls := [App.current_user_call; Fixtures.guilds_call] |})
    /\ (User.guilds <$> App.get_from_cache app')
       = Some (Some [Sample.guild 1; Sample.guild 2]).
Proof.
  destruct (@user_fetch_with_members_raises Fixtures.client_alice
              Fixtures.two_guilds Fixtures.empty_app []
              [App.current_user_call; Fixtures.guilds_call] Sample.alice
              (Sample.user_of Sample.alice) [Sample.guild 1; Sample.guild 2]
              eq_refl eq_refl eq_refl)
    as (app' & Hrun & Hcached).
  exists app'. split; [exact Hrun|]. now rewrite Hcached.
Defined.

End MoreExamples.
